(** * scripts/todoist_client.py: the Todoist command-line client

    A shallow embedding of [TodoistClient], [load_tasks_from_file] and the
    [__main__] dispatch.  The program talks to three things outside itself:
    the process environment, the file system and the [requests] library.
    They are gathered in a [World]; every call into [requests] is recorded
    in a trace, so that "which HTTP calls were issued, in which order, with
    which arguments" is a statement about a list. *)

From Stdlib Require Import ZArith String Ascii List Bool Lia.
From Stdlib Require Import Floats.SpecFloat.
From stdpp Require Import base list strings pretty.

Local Open Scope string_scope.
Local Open Scope Z_scope.

Set Warnings "-register-all".

(** ** Python values

    The values the program handles are the ones [json.load] produces
    (None, bool, int, float, str, list, dict) and the strings of [argparse].
    A dict keeps insertion order, so it is an association list. *)

Inductive pyval : Type :=
| PNone
| PBool (b : bool)
| PInt (z : Z)
| PFloat (f : spec_float)
| PStr (s : string)
| PList (l : list pyval)
| PDict (d : list (string * pyval)).

(** Python truth value, as tested by [if x:] and [not x]. *)
Definition truthy (v : pyval) : bool :=
  match v with
  | PNone => false
  | PBool b => b
  | PInt z => negb (z =? 0)
  | PFloat (S754_zero _) => false
  | PFloat _ => true
  | PStr s => negb (String.eqb s "")
  | PList l => match l with [] => false | _ => true end
  | PDict d => match d with [] => false | _ => true end
  end.

(** [x is not None] *)
Definition is_not_none (v : pyval) : bool :=
  match v with PNone => false | _ => true end.

(** An [argparse] attribute or [os.environ.get] result: a str or None. *)
Definition of_opt (o : option string) : pyval :=
  match o with Some s => PStr s | None => PNone end.

(** [d[k] = v] on an insertion-ordered dict. *)
Fixpoint dict_set (d : list (string * pyval)) (k : string) (v : pyval)
  : list (string * pyval) :=
  match d with
  | [] => [(k, v)]
  | (k', v') :: rest =>
      if String.eqb k' k then (k, v) :: rest else (k', v') :: dict_set rest k v
  end.

(** [d.get(k)] on a dict: the value, or None. *)
Fixpoint dict_get (d : list (string * pyval)) (k : string) : pyval :=
  match d with
  | [] => PNone
  | (k', v) :: rest => if String.eqb k' k then v else dict_get rest k
  end.

(** [k in d] *)
Fixpoint dict_has_key (d : list (string * pyval)) (k : string) : bool :=
  match d with
  | [] => false
  | (k', _) :: rest => String.eqb k' k || dict_has_key rest k
  end.

(** ** Strings: [str.strip()] and [str.split(",")]

    A character of a [string] stands for a code point below 256. *)

(** [str.isspace] on one character: TAB..CR, FS..US, space, NEL, NBSP. *)
Definition is_space (c : ascii) : bool :=
  let n := nat_of_ascii c in
  ((9 <=? n) && (n <=? 13) || (28 <=? n) && (n <=? 32)
   || (n =? 133) || (n =? 160))%nat.

Fixpoint lstrip (s : list ascii) : list ascii :=
  match s with
  | c :: rest => if is_space c then lstrip rest else s
  | [] => []
  end.

Definition strip (s : string) : string :=
  string_of_list_ascii
    (rev (lstrip (rev (lstrip (list_ascii_of_string s))))).

(** [s.split(sep)] for a one-character separator; [cur] is the field
    being read, reversed. *)
Fixpoint split_go (sep : ascii) (cur : list ascii) (s : list ascii)
  : list string :=
  match s with
  | [] => [string_of_list_ascii (rev cur)]
  | c :: rest =>
      if Ascii.eqb c sep
      then string_of_list_ascii (rev cur) :: split_go sep [] rest
      else split_go sep (c :: cur) rest
  end.

Definition split (sep : ascii) (s : string) : list string :=
  split_go sep [] (list_ascii_of_string s).

(** ** HTTP calls and the outside world *)

Inductive http_method : Type := GET | POST | DELETE.

(** One call of [requests.get], [requests.post] or [requests.delete] with
    its arguments; [None] is a keyword argument that was not passed. *)
Record request : Type := mk_request {
  req_method : http_method;
  req_url : string;
  req_headers : list (string * string);
  req_params : option (list (string * pyval));
  req_json : option pyval
}.

Record response : Type := mk_response {
  status_code : Z;
  text : string
}.

Inductive file : Type :=
| Readable (content : string)   (* [open] and [read] succeed *)
| Unreadable                    (* the path exists, [open] raises OSError:
                                   a directory, no permission *)
| Undecodable.                  (* [read] raises UnicodeDecodeError: the
                                   bytes are not text in the encoding *)

Record World : Type := mk_world {
  (** [os.environ.get] *)
  environ : string -> option string;
  (** [None]: [os.path.exists] is false. *)
  fs : string -> option file;
  (** What [requests] answers to a call, given the calls made before it;
      [None]: the call raises without a response (no connection, body
      that cannot be sent, ...). *)
  requests_send : list request -> request -> option response
}.

(** ** Exceptions, process state and the program monad *)

Inductive exn : Type :=
| SystemExit_code (code : Z)      (* [sys.exit(n)] *)
| SystemExit_msg (msg : string)   (* [raise SystemExit("...")] *)
| HTTPError (resp : response)     (* [raise_for_status] *)
| RequestException                (* [requests] raised without a response *)
| JSONDecodeError
| ValueError (msg : string)
| AttributeError
| OSError
| UnicodeDecodeError.             (* a ValueError, not an OSError *)

(** What reaches standard error: a printed line, or the traceback the
    interpreter prints for an exception nobody caught. *)
Inductive diagnostic : Type :=
| Line (s : string)
| Traceback (e : exn).

Record state : Type := mk_state {
  trace : list request;        (* calls into [requests], oldest first *)
  stdout : list string;        (* the texts printed, one per call of
                                  [print], oldest first; a text may
                                  span several lines *)
  stderr : list diagnostic
}.

Definition initial : state := mk_state [] [] [].

Definition M (A : Type) : Type := state -> state * (exn + A).

Definition ret {A} (a : A) : M A := fun st => (st, inr a).

Definition raise {A} (e : exn) : M A := fun st => (st, inl e).

Definition bind {A B} (m : M A) (k : A -> M B) : M B :=
  fun st =>
    match m st with
    | (st', inr a) => k a st'
    | (st', inl e) => (st', inl e)
    end.

Declare Scope prog_scope.
Delimit Scope prog_scope with prog.
Notation "x <- m ;; k" := (bind m (fun x => k))
  (at level 100, m at next level, right associativity) : prog_scope.
Notation "m ;;; k" := (bind m (fun _ => k))
  (at level 100, right associativity) : prog_scope.
Local Open Scope prog_scope.

(** [print(s)] *)
Definition print (s : string) : M unit :=
  fun st => (mk_state (trace st) (stdout st ++ [s]) (stderr st), inr tt).

(** [print(s, file=sys.stderr)] *)
Definition print_err (s : string) : M unit :=
  fun st => (mk_state (trace st) (stdout st) (stderr st ++ [Line s]), inr tt).

Section Program.

(** [json.loads] ([None]: the text is not JSON) and
    [json.dumps(_, indent=2)], from the standard library. *)
Variable json_loads : string -> option pyval.
Variable json_dumps : pyval -> string.

Variable w : World.

(** A call into [requests]: recorded, then answered by the world. *)
Definition send (r : request) : M response :=
  fun st =>
    let st' := mk_state (trace st ++ [r]) (stdout st) (stderr st) in
    match requests_send w (trace st) r with
    | Some resp => (st', inr resp)
    | None => (st', inl RequestException)
    end.

(** [Response.raise_for_status] of [requests]: HTTPError for a 4xx or a
    5xx status, nothing otherwise. *)
Definition is_error_status (s : Z) : bool := (400 <=? s) && (s <? 600).

Definition raise_for_status (resp : response) : M unit :=
  if is_error_status (status_code resp) then raise (HTTPError resp)
  else ret tt.

(** [Response.json] *)
Definition resp_json (resp : response) : M pyval :=
  match json_loads (text resp) with
  | Some v => ret v
  | None => raise JSONDecodeError
  end.

(** [with open(path, "r") as f: f.read()]; a path that does not exist
    raises FileNotFoundError, an OSError. *)
Definition read_file (path : string) : M string :=
  match fs w path with
  | Some (Readable c) => ret c
  | Some Undecodable => raise UnicodeDecodeError
  | Some Unreadable | None => raise OSError
  end.

(** ** class TodoistClient *)

(** [f"{x}"] for a str or None. *)
Definition fmt (o : option string) : string :=
  match o with Some s => s | None => "None" end.

Record client : Type := mk_client {
  token : option string;
  api_url : string;
  headers : list (string * string)
}.

(** The [for name in [...]] loop of [__init__]; [tok] is [self.token]. *)
Fixpoint secret_loop (tok : option string) (names : list string)
  : M (option string) :=
  match names with
  | [] => ret tok
  | name :: rest =>
      let path := "/run/secrets/" +:+ name in
      match fs w path with
      | Some _ => c <- read_file path ;; ret (Some (strip c))   (* break *)
      | None => secret_loop tok rest
      end
  end.

(** The attributes [__init__] sets once [self.token] is settled. *)
Definition new_client (tok : option string) : client :=
  mk_client tok "https://api.todoist.com/rest/v2"
    [("Authorization", "Bearer " +:+ fmt tok);
     ("Content-Type", "application/json")].

Definition missing_token_message : string :=
  "Error: TODOIST_TOKEN environment variable or /run/secrets/todoist_token not found.".

Definition init : M client :=
  let tok := environ w "TODOIST_TOKEN" in
  tok <- (if negb (truthy (of_opt tok))
          then secret_loop tok ["todoist_token"; "TODOIST_TOKEN"]
          else ret tok) ;;
  (if negb (truthy (of_opt tok))
   then print_err missing_token_message ;;; raise (SystemExit_code 1)
   else ret tt) ;;;
  ret (new_client tok).

Definition list_tasks_params (project_id : pyval) : list (string * pyval) :=
  if truthy project_id then [("project_id", project_id)] else [].

Definition list_tasks (c : client) (project_id : pyval) : M pyval :=
  let params := list_tasks_params project_id in
  resp <- send (mk_request GET (api_url c +:+ "/tasks") (headers c)
                  (Some params) None) ;;
  raise_for_status resp ;;;
  resp_json resp.

Definition create_task_data (content project_id labels description : pyval)
  : list (string * pyval) :=
  let data := [("content", content); ("project_id", project_id)] in
  let data := if truthy labels then dict_set data "labels" labels else data in
  let data := if truthy description
              then dict_set data "description" description else data in
  data.

Definition create_task (c : client)
    (content project_id labels description : pyval) : M pyval :=
  let data := create_task_data content project_id labels description in
  resp <- send (mk_request POST (api_url c +:+ "/tasks") (headers c)
                  None (Some (PDict data))) ;;
  raise_for_status resp ;;;
  resp_json resp.

Definition delete_task (c : client) (task_id : option string) : M bool :=
  resp <- send (mk_request DELETE (api_url c +:+ "/tasks/" +:+ fmt task_id)
                  (headers c) None None) ;;
  raise_for_status resp ;;;
  ret true.

Definition complete_task (c : client) (task_id : option string) : M bool :=
  resp <- send (mk_request POST
                  (api_url c +:+ "/tasks/" +:+ fmt task_id +:+ "/close")
                  (headers c) None None) ;;
  raise_for_status resp ;;;
  ret true.

Definition update_task_data (labels description : pyval)
  : list (string * pyval) :=
  let data := [] in
  let data := if is_not_none labels
              then dict_set data "labels" labels else data in
  let data := if is_not_none description
              then dict_set data "description" description else data in
  data.

Definition update_task (c : client) (task_id : option string)
    (labels description : pyval) : M pyval :=
  let data := update_task_data labels description in
  resp <- send (mk_request POST (api_url c +:+ "/tasks/" +:+ fmt task_id)
                  (headers c) None (Some (PDict data))) ;;
  raise_for_status resp ;;;
  resp_json resp.

(** ** load_tasks_from_file *)

Definition load_tasks_from_file (path : string) : M (list pyval) :=
  c <- read_file path ;;
  match json_loads c with
  | None => raise JSONDecodeError
  | Some (PList l) => ret l
  | Some _ => raise (ValueError "Batch payload must be a JSON array.")
  end.

(** ** The command line *)

Inductive command_name : Type :=
| Clist | Ccreate | Ccreate_batch | Cdelete | Ccomplete | Cupdate.

(** The namespace [parser.parse_args()] returns; an option that was not
    given is None. *)
Record args : Type := mk_args {
  command : command_name;
  project : option string;
  content : option string;
  id : option string;
  labels : option string;
  description : option string;
  file_arg : option string       (* [--file] *)
}.

(** [args.labels.split(",") if args.labels else None] *)
Definition cli_labels (l : option string) : pyval :=
  match l with
  | Some s => if truthy (PStr s) then PList (map PStr (split "," s)) else PNone
  | None => PNone
  end.

(** [task.get(k)]: only a dict has the method. *)
Definition py_get (task : pyval) (k : string) : M pyval :=
  match task with
  | PDict d => ret (dict_get d k)
  | _ => raise AttributeError
  end.

(** The [for task in batch] loop; [created] is the list built so far. *)
Fixpoint batch_loop (c : client) (proj : pyval) (batch : list pyval)
    (created : list pyval) : M (list pyval) :=
  match batch with
  | [] => ret created
  | task :: rest =>
      t_content <- py_get task "content" ;;
      t_labels <- py_get task "labels" ;;
      t_description <- py_get task "description" ;;
      r <- create_task c t_content proj t_labels t_description ;;
      batch_loop c proj rest (created ++ [r])
  end.

Definition main (a : args) : M unit :=
  c <- init ;;
  match command a with
  | Clist =>
      r <- list_tasks c (of_opt (project a)) ;;
      print (json_dumps r)
  | Ccreate =>
      let labels := cli_labels (labels a) in
      r <- create_task c (of_opt (content a)) (of_opt (project a))
             labels PNone ;;
      print (json_dumps r)
  | Ccreate_batch =>
      (if negb (truthy (of_opt (project a)))
       then raise (SystemExit_msg "create-batch requires --project")
       else ret tt) ;;;
      (if negb (truthy (of_opt (file_arg a)))
       then raise (SystemExit_msg "create-batch requires --file")
       else ret tt) ;;;
      batch <- load_tasks_from_file (fmt (file_arg a)) ;;
      created <- batch_loop c (of_opt (project a)) batch [] ;;
      print (json_dumps (PList created))
  | Cupdate =>
      let labels := cli_labels (labels a) in
      r <- update_task c (id a) labels (of_opt (description a)) ;;
      print (json_dumps r)
  | Cdelete =>
      ok <- delete_task c (id a) ;;
      if ok then print ("Deleted " +:+ fmt (id a)) else ret tt
  | Ccomplete =>
      ok <- complete_task c (id a) ;;
      if ok then print ("Completed " +:+ fmt (id a)) else ret tt
  end.

(** ** The process

    The script from [client = TodoistClient()] on: [parser.parse_args()]
    has returned the namespace [a].  (On a command line it refuses,
    [parse_args] ends the process itself, with status 2, and on [--help]
    with status 0; those runs never reach the code below.)

    What the interpreter does with the result of the script: status 0 at
    the end of the script; [sys.exit(n)] gives status [n]; a SystemExit
    with a message prints the message on standard error and gives status
    1; any other exception prints a traceback and gives status 1. *)

Record outcome : Type := mk_outcome {
  exit_code : Z;
  final : state
}.

Definition add_stderr (st : state) (d : diagnostic) : state :=
  mk_state (trace st) (stdout st) (stderr st ++ [d]).

Definition finish (r : state * (exn + unit)) : outcome :=
  match r with
  | (st, inr _) => mk_outcome 0 st
  | (st, inl (SystemExit_code n)) => mk_outcome n st
  | (st, inl (SystemExit_msg m)) => mk_outcome 1 (add_stderr st (Line m))
  | (st, inl e) => mk_outcome 1 (add_stderr st (Traceback e))
  end.

Definition run (a : args) : outcome := finish (main a initial).

End Program.

(** ** Credential resolution in closed form

    What [__init__] computes, read off its control flow (lemma
    [init_resolves] below): the sources are visited in order and the
    first one that is present decides.  The environment variable is
    present when it holds a non-empty string; a secret file is present
    as soon as its path exists, whatever it holds, because the loop
    leaves at the first path that exists.  A file that exists and cannot
    be opened, or cannot be decoded, is a source that breaks. *)

Inductive source : Type :=
| NoMatch
| Match (t : string)
| Broken          (* [open] raises OSError *)
| Garbled.        (* [read] raises UnicodeDecodeError *)

Definition env_source (w : World) : source :=
  match environ w "TODOIST_TOKEN" with
  | Some t => if String.eqb t "" then NoMatch else Match t
  | None => NoMatch
  end.

Definition file_source (w : World) (name : string) : source :=
  match fs w ("/run/secrets/" +:+ name) with
  | None => NoMatch
  | Some (Readable c) => Match (strip c)
  | Some Unreadable => Broken
  | Some Undecodable => Garbled
  end.

Fixpoint first_match (l : list source) : source :=
  match l with
  | [] => NoMatch
  | NoMatch :: rest => first_match rest
  | s :: _ => s
  end.

Definition resolve_in_order (w : World) : source :=
  first_match [env_source w;
               file_source w "todoist_token";
               file_source w "TODOIST_TOKEN"].

(** ** Credential resolution in the words of the specification

    What each source yields: the variable its value, a secret file its
    content without the surrounding whitespace, when it can be read.
    The token of the specification is what the first source that yields
    a non-empty string yields. *)






(** The fatal exit of [__init__]: the diagnostic, then [sys.exit(1)]. *)
Definition fatal {A} (st : state) : state * (exn + A) :=
  (add_stderr st (Line missing_token_message), inl (SystemExit_code 1)).

(** ** Vocabulary for the statements

    The calls the client methods make, and what a method that parses the
    answer returns for a call [r] made after the calls [h]. *)

Definition sent (st : state) (r : request) : state :=
  mk_state (trace st ++ [r]) (stdout st) (stderr st).

Definition list_call (c : client) (project_id : pyval) : request :=
  mk_request GET (api_url c +:+ "/tasks") (headers c)
    (Some (list_tasks_params project_id)) None.

Definition create_call (c : client)
    (content project_id labels description : pyval) : request :=
  mk_request POST (api_url c +:+ "/tasks") (headers c) None
    (Some (PDict (create_task_data content project_id labels description))).

Definition update_call (c : client) (task_id : option string)
    (labels description : pyval) : request :=
  mk_request POST (api_url c +:+ "/tasks/" +:+ fmt task_id) (headers c) None
    (Some (PDict (update_task_data labels description))).

Definition delete_call (c : client) (task_id : option string) : request :=
  mk_request DELETE (api_url c +:+ "/tasks/" +:+ fmt task_id) (headers c)
    None None.

Definition complete_call (c : client) (task_id : option string) : request :=
  mk_request POST (api_url c +:+ "/tasks/" +:+ fmt task_id +:+ "/close")
    (headers c) None None.

(** The create call of one batch element, a dict [d]. *)
Definition batch_call (c : client) (proj : pyval) (d : list (string * pyval))
  : request :=
  create_call c (dict_get d "content") proj
    (dict_get d "labels") (dict_get d "description").

(** The call a single-request subcommand makes. *)
Definition cli_call (c : client) (a : args) : option request :=
  match command a with
  | Clist => Some (list_call c (of_opt (project a)))
  | Ccreate =>
      Some (create_call c (of_opt (content a)) (of_opt (project a))
              (cli_labels (labels a)) PNone)
  | Cupdate =>
      Some (update_call c (id a) (cli_labels (labels a))
              (of_opt (description a)))
  | Cdelete => Some (delete_call c (id a))
  | Ccomplete => Some (complete_call c (id a))
  | Ccreate_batch => None
  end.

Definition answer (json_loads : string -> option pyval) (w : World)
    (h : list request) (r : request) : exn + pyval :=
  match requests_send w h r with
  | None => inl RequestException
  | Some resp =>
      if is_error_status (status_code resp) then inl (HTTPError resp)
      else match json_loads (text resp) with
           | Some v => inr v
           | None => inl JSONDecodeError
           end
  end.

(** A 2xx status, the specification's notion of success. *)
Definition is_2xx (s : Z) : bool := (200 <=? s) && (s <? 300).

(** [args] with another [--description]. *)
Definition with_description (a : args) (d : option string) : args :=
  mk_args (command a) (project a) (content a) (id a) (labels a) d
    (file_arg a).

(** ** Sample inputs

    Concrete values for the parameters, on which the definitions above
    run: a fragment of [json.loads], a stand-in for [json.dumps], and
    worlds with a given token variable, given secret files and a given
    server. *)

Definition quoted (s : string) : string :=
  String "034"%char (s +:+ String "034"%char "").

(** [{"content": "A"}] and the like *)
Definition object_text (k v : string) : string :=
  "{" +:+ quoted k +:+ ": " +:+ quoted v +:+ "}".

Definition batch2_text : string :=
  "[" +:+ object_text "content" "A" +:+ ", "
      +:+ object_text "content" "B" +:+ "]".

Definition batch3_text : string :=
  "[" +:+ object_text "content" "A" +:+ ", "
      +:+ object_text "content" "B" +:+ ", "
      +:+ object_text "content" "C" +:+ "]".

Definition sample_loads (s : string) : option pyval :=
  if String.eqb s batch2_text
  then Some (PList [PDict [("content", PStr "A")];
                    PDict [("content", PStr "B")]])
  else if String.eqb s batch3_text
  then Some (PList [PDict [("content", PStr "A")];
                    PDict [("content", PStr "B")];
                    PDict [("content", PStr "C")]])
  else if String.eqb s (object_text "content" "A")
  then Some (PDict [("content", PStr "A")])
  else if String.eqb s (object_text "id" "1")
  then Some (PDict [("id", PStr "1")])
  else if String.eqb s (object_text "id" "2")
  then Some (PDict [("id", PStr "2")])
  else if String.eqb s (object_text "id" "3")
  then Some (PDict [("id", PStr "3")])
  else if String.eqb s "[]" then Some (PList [])
  else None.

(** Only the outer shape is rendered. *)
Definition sample_dumps (v : pyval) : string :=
  match v with
  | PList l => "[" +:+ pretty (length l) +:+ " items]"
  | PDict d => "{" +:+ pretty (length d) +:+ " keys}"
  | _ => "scalar"
  end.

(** The [n]-th call (from 0) is answered with task [n+1]. *)
Definition numbering_server (h : list request) (r : request)
  : option response :=
  match length h with
  | 0%nat => Some (mk_response 200 (object_text "id" "1"))
  | 1%nat => Some (mk_response 200 (object_text "id" "2"))
  | _ => Some (mk_response 200 (object_text "id" "3"))
  end.

(** As [numbering_server], the second call refused. *)
Definition refusing_server (h : list request) (r : request)
  : option response :=
  match length h with
  | 1%nat => Some (mk_response 400 "Bad Request")
  | _ => numbering_server h r
  end.

Definition constant_server (resp : response)
  (h : list request) (r : request) : option response := Some resp.

Definition sample_fs (lower upper : option file) (path : string)
  : option file :=
  if String.eqb path "/run/secrets/todoist_token" then lower
  else if String.eqb path "/run/secrets/TODOIST_TOKEN" then upper
  else if String.eqb path "two.json" then Some (Readable batch2_text)
  else if String.eqb path "three.json" then Some (Readable batch3_text)
  else if String.eqb path "object.json"
  then Some (Readable (object_text "content" "A"))
  else None.

Definition sample_world (env : option string) (lower upper : option file)
    (server : list request -> request -> option response) : World :=
  mk_world (fun k => if String.eqb k "TODOIST_TOKEN" then env else None)
    (sample_fs lower upper) server.

(** The token in the environment, no secret file. *)
Definition env_world
    (server : list request -> request -> option response) : World :=
  sample_world (Some "secret") None None server.

Definition sample_client : client := new_client (Some "secret").

Definition batch_args (proj file : option string) : args :=
  mk_args Ccreate_batch proj None None None None file.

(** ** Vocabulary for the further properties *)

(** [sep.join(l)], the inverse of [split]. *)
Fixpoint join (sep : ascii) (l : list string) : string :=
  match l with
  | [] => ""
  | s :: rest =>
      match rest with
      | [] => s
      | _ => s +:+ String sep (join sep rest)
      end
  end.

(** No whitespace at the start; at both ends. *)
Definition clean_start (l : list ascii) : bool :=
  match l with
  | c :: _ => negb (is_space c)
  | [] => true
  end.

Definition clean_ends (s : string) : bool :=
  clean_start (list_ascii_of_string s)
  && clean_start (rev (list_ascii_of_string s)).

(** The HTTP method of a subcommand's calls. *)
Definition expected_method (cmd : command_name) : http_method :=
  match cmd with
  | Clist => GET
  | Cdelete => DELETE
  | _ => POST
  end.

(** The subcommands that make one call. *)
Definition single_call (cmd : command_name) : bool :=
  match cmd with
  | Ccreate_batch => false
  | _ => true
  end.

(** The exceptions for which the interpreter prints a traceback. *)
Definition traceback_exn (e : exn) : bool :=
  match e with
  | SystemExit_code _ | SystemExit_msg _ => false
  | _ => true
  end.

(** The outcome of a run whose calls are [tr]: one line printed and
    status 0, or one diagnostic and status 1. *)
Definition ends_with (o : outcome) (tr : list request) : Prop :=
  (exists line, o = mk_outcome 0 (mk_state tr [line] []))
  \/ (exists d, o = mk_outcome 1 (mk_state tr [] [d])).

(** ** More sample inputs: an array with a number in it, an empty
    array *)

Definition mixed_text : string :=
  "[" +:+ object_text "content" "A" +:+ ", 1]".

Definition more_loads (s : string) : option pyval :=
  if String.eqb s mixed_text
  then Some (PList [PDict [("content", PStr "A")]; PInt 1])
  else sample_loads s.

Definition more_fs (path : string) : option file :=
  if String.eqb path "mixed.json" then Some (Readable mixed_text)
  else if String.eqb path "empty.json" then Some (Readable "[]")
  else sample_fs None None path.

Definition more_world
    (server : list request -> request -> option response) : World :=
  mk_world (environ (env_world server)) more_fs server.

(** * Properties *)

Section Claims.

Variable json_loads : string -> option pyval.
Variable json_dumps : pyval -> string.
Variable w : World.

Abbreviation run' := (run json_loads json_dumps w).
Abbreviation main' := (main json_loads json_dumps w).
Abbreviation answer' := (answer json_loads w).

Lemma truthy_str (s : string) : truthy (PStr s) = negb (String.eqb s "").
Proof. reflexivity. Qed.

(** ** What each method does to the process state *)

(** A method is one call, then a case analysis on the answer. *)
Ltac by_answer :=
  unfold answer, send, bind, raise_for_status, resp_json, sent, ret, raise;
  repeat match goal with
         | |- context [requests_send ?x ?h ?r] =>
             destruct (requests_send x h r)
         | |- context [is_error_status ?s] => destruct (is_error_status s)
         | |- context [json_loads ?t] => destruct (json_loads t)
         end;
  reflexivity.

Lemma list_tasks_runs c p st :
  list_tasks json_loads w c p st
  = (sent st (list_call c p), answer' (trace st) (list_call c p)).
Proof. unfold list_tasks, list_call. by_answer. Qed.

Lemma create_task_runs c ct p l d st :
  create_task json_loads w c ct p l d st
  = (sent st (create_call c ct p l d),
     answer' (trace st) (create_call c ct p l d)).
Proof. unfold create_task, create_call. by_answer. Qed.

Lemma update_task_runs c i l d st :
  update_task json_loads w c i l d st
  = (sent st (update_call c i l d), answer' (trace st) (update_call c i l d)).
Proof. unfold update_task, update_call. by_answer. Qed.

(** [delete_task] and [complete_task] do not parse the answer. *)
Lemma delete_task_runs c i st :
  delete_task w c i st
  = (sent st (delete_call c i),
     match requests_send w (trace st) (delete_call c i) with
     | None => inl RequestException
     | Some resp =>
         if is_error_status (status_code resp) then inl (HTTPError resp)
         else inr true
     end).
Proof. unfold delete_task, delete_call. by_answer. Qed.

Lemma complete_task_runs c i st :
  complete_task w c i st
  = (sent st (complete_call c i),
     match requests_send w (trace st) (complete_call c i) with
     | None => inl RequestException
     | Some resp =>
         if is_error_status (status_code resp) then inl (HTTPError resp)
         else inr true
     end).
Proof. unfold complete_task, complete_call. by_answer. Qed.

(** An exception of a client call is never a SystemExit: the interpreter
    prints its traceback and the status is 1. *)
Lemma answer_uncaught h r e st :
  answer' h r = inl e ->
  finish (st, inl e) = mk_outcome 1 (add_stderr st (Traceback e)).
Proof.
  unfold answer. intros H.
  destruct (requests_send w h r) as [resp|].
  - destruct (is_error_status (status_code resp)).
    + injection H as <-. reflexivity.
    + destruct (json_loads (text resp)); [discriminate|].
      injection H as <-. reflexivity.
  - injection H as <-. reflexivity.
Qed.

(** ** Credential resolution *)

(** [__init__] computes exactly the first source that is present. *)
Lemma init_resolves (st : state) :
  init w st =
    match resolve_in_order w with
    | Match t =>
        if String.eqb t "" then fatal st else (st, inr (new_client (Some t)))
    | NoMatch => fatal st
    | Broken => (st, inl OSError)
    | Garbled => (st, inl UnicodeDecodeError)
    end.
Proof.
  unfold init, resolve_in_order, env_source, file_source, first_match,
    secret_loop, read_file, fatal.
  destruct (environ w "TODOIST_TOKEN") as [t|]; cbn [of_opt truthy negb].
  - destruct (String.eqb t "") eqn:Et; cbn [negb].
    + destruct (fs w ("/run/secrets/" +:+ "todoist_token")) as [[c| |]|];
        [| reflexivity | reflexivity |].
      * unfold bind, ret; cbn. destruct (String.eqb (strip c) ""); reflexivity.
      * destruct (fs w ("/run/secrets/" +:+ "TODOIST_TOKEN")) as [[c| |]|];
          [| reflexivity | reflexivity |].
        -- unfold bind, ret; cbn.
           destruct (String.eqb (strip c) ""); reflexivity.
        -- unfold bind, ret; cbn. rewrite Et. reflexivity.
    + unfold bind, ret; cbn. rewrite Et. reflexivity.
  - destruct (fs w ("/run/secrets/" +:+ "todoist_token")) as [[c| |]|];
      [| reflexivity | reflexivity |].
    + unfold bind, ret; cbn. destruct (String.eqb (strip c) ""); reflexivity.
    + destruct (fs w ("/run/secrets/" +:+ "TODOIST_TOKEN")) as [[c| |]|];
        [| reflexivity | reflexivity |].
      * unfold bind, ret; cbn.
        destruct (String.eqb (strip c) ""); reflexivity.
      * reflexivity.
Qed.

(** A failed [__init__] ends the script there. *)
Lemma main_init_fails a st st' e :
  init w st = (st', inl e) -> main' a st = (st', inl e).
Proof. intros H. unfold main, bind. rewrite H. reflexivity. Qed.




(** [__init__] either returns a client with a non-empty token and leaves
    the state alone, or raises having touched standard error at most. *)
Lemma init_cases (st : state) :
  (exists t, t <> "" /\ init w st = (st, inr (new_client (Some t))))
  \/ (exists st' e, init w st = (st', inl e)
                    /\ trace st' = trace st /\ stdout st' = stdout st
                    /\ exit_code (finish (st', inl e)) = 1).
Proof.
  rewrite init_resolves.
  destruct (resolve_in_order w) as [|t| |].
  - right. eexists _, _. repeat split.
  - destruct (String.eqb t "") eqn:Et.
    + right. eexists _, _. repeat split.
    + left. exists t. split; [|reflexivity]. intros ->. discriminate.
  - right. eexists _, _. repeat split.
  - right. eexists _, _. repeat split.
Qed.

(** ** Request bodies *)

Lemma update_has_labels l d :
  dict_has_key (update_task_data l d) "labels" = is_not_none l.
Proof. destruct l, d; reflexivity. Qed.

Lemma update_has_description l d :
  dict_has_key (update_task_data l d) "description" = is_not_none d.
Proof. destruct l, d; reflexivity. Qed.

Lemma update_get_labels l d : dict_get (update_task_data l d) "labels" = l.
Proof. destruct l, d; reflexivity. Qed.

Lemma update_get_description l d :
  dict_get (update_task_data l d) "description" = d.
Proof. destruct l, d; reflexivity. Qed.

Lemma create_has_labels ct p l d :
  dict_has_key (create_task_data ct p l d) "labels" = truthy l.
Proof.
  unfold create_task_data.
  destruct (truthy l), (truthy d); reflexivity.
Qed.

Lemma create_has_description ct p l d :
  dict_has_key (create_task_data ct p l d) "description" = truthy d.
Proof.
  unfold create_task_data.
  destruct (truthy l), (truthy d); reflexivity.
Qed.

Lemma create_get_project ct p l d :
  dict_get (create_task_data ct p l d) "project_id" = p.
Proof.
  unfold create_task_data.
  destruct (truthy l), (truthy d); reflexivity.
Qed.

(** C2, as the code has it.  [update_task] puts a field in the body
    exactly when the argument is not None, with the value given, an empty
    list or an empty string included.  [create_task] puts a field in the
    body exactly when the argument is true in Python's sense: None, an
    empty list and an empty string are all left out. *)
Theorem C2_optional_fields (c : client) (task_id : option string)
    (content project_id labels description : pyval) (st : state) :
  (fst (update_task json_loads w c task_id labels description st)
   = sent st (update_call c task_id labels description)
   /\ req_json (update_call c task_id labels description)
      = Some (PDict (update_task_data labels description))
   /\ dict_has_key (update_task_data labels description) "labels"
      = is_not_none labels
   /\ dict_has_key (update_task_data labels description) "description"
      = is_not_none description
   /\ dict_get (update_task_data labels description) "labels" = labels
   /\ dict_get (update_task_data labels description) "description"
      = description)
  /\
  (fst (create_task json_loads w c content project_id labels description st)
   = sent st (create_call c content project_id labels description)
   /\ req_json (create_call c content project_id labels description)
      = Some (PDict (create_task_data content project_id labels description))
   /\ dict_has_key (create_task_data content project_id labels description)
        "labels" = truthy labels
   /\ dict_has_key (create_task_data content project_id labels description)
        "description" = truthy description).
Proof.
  rewrite update_task_runs, create_task_runs. cbn [fst].
  repeat split.
  - apply update_has_labels.
  - apply update_has_description.
  - apply update_get_labels.
  - apply update_get_description.
  - apply create_has_labels.
  - apply create_has_description.
Qed.

(** C7. [create_task("Buy milk", "proj1")] posts to /tasks the body
    [{"content": "Buy milk", "project_id": "proj1"}] and nothing more:
    neither a labels key nor a description key. *)
Theorem C7_create_task_minimal_body (c : client) (st : state) :
  let body := [("content", PStr "Buy milk"); ("project_id", PStr "proj1")] in
  fst (create_task json_loads w c (PStr "Buy milk") (PStr "proj1")
         PNone PNone st)
  = sent st (mk_request POST (api_url c +:+ "/tasks") (headers c) None
               (Some (PDict body)))
  /\ dict_has_key body "labels" = false
  /\ dict_has_key body "description" = false.
Proof. rewrite create_task_runs. repeat split. Qed.

(** C8. [update_task("t1", labels=["a","b"])] posts to /tasks/t1 the body
    [{"labels": ["a","b"]}], with no description key. *)
Theorem C8_update_task_labels_only (c : client) (st : state) :
  let body := [("labels", PList [PStr "a"; PStr "b"])] in
  fst (update_task json_loads w c (Some "t1")
         (PList [PStr "a"; PStr "b"]) PNone st)
  = sent st (mk_request POST (api_url c +:+ "/tasks/" +:+ "t1") (headers c)
               None (Some (PDict body)))
  /\ dict_has_key body "description" = false.
Proof. rewrite update_task_runs. repeat split. Qed.

(** C9. [list_tasks()] without a project filter sends a GET to /tasks
    whose query parameters are the empty dict: no project_id key. *)
Theorem C9_list_tasks_no_filter (c : client) (st : state) :
  fst (list_tasks json_loads w c PNone st)
  = sent st (mk_request GET (api_url c +:+ "/tasks") (headers c)
               (Some []) None)
  /\ dict_has_key (list_tasks_params PNone) "project_id" = false.
Proof. rewrite list_tasks_runs. repeat split. Qed.

(** ** The script as a whole *)

Lemma finish_trace r : trace (final (finish r)) = trace (fst r).
Proof. destruct r as [st [[]|[]]]; reflexivity. Qed.

Lemma finish_stdout r : stdout (final (finish r)) = stdout (fst r).
Proof. destruct r as [st [[]|[]]]; reflexivity. Qed.

(** The script once [TodoistClient()] has returned [c]. *)
Lemma main_after_init a c st :
  init w st = (st, inr c) ->
  main' a st =
    match command a with
    | Clist =>
        (r <- list_tasks json_loads w c (of_opt (project a)) ;;
         print (json_dumps r)) st
    | Ccreate =>
        (r <- create_task json_loads w c (of_opt (content a))
                (of_opt (project a)) (cli_labels (labels a)) PNone ;;
         print (json_dumps r)) st
    | Ccreate_batch =>
        if negb (truthy (of_opt (project a)))
        then (st, inl (SystemExit_msg "create-batch requires --project"))
        else if negb (truthy (of_opt (file_arg a)))
        then (st, inl (SystemExit_msg "create-batch requires --file"))
        else
          (batch <- load_tasks_from_file json_loads w (fmt (file_arg a)) ;;
           created <- batch_loop json_loads w c (of_opt (project a))
                        batch [] ;;
           print (json_dumps (PList created))) st
    | Cupdate =>
        (r <- update_task json_loads w c (id a) (cli_labels (labels a))
                (of_opt (description a)) ;;
         print (json_dumps r)) st
    | Cdelete =>
        (ok <- delete_task w c (id a) ;;
         if ok then print ("Deleted " +:+ fmt (id a)) else ret tt) st
    | Ccomplete =>
        (ok <- complete_task w c (id a) ;;
         if ok then print ("Completed " +:+ fmt (id a)) else ret tt) st
    end.
Proof.
  intros H. unfold main. unfold bind at 1. rewrite H.
  destruct (command a); try reflexivity.
  unfold bind, raise, ret.
  destruct (negb (truthy (of_opt (project a)))); [reflexivity|].
  destruct (negb (truthy (of_opt (file_arg a)))); reflexivity.
Qed.

(** A single-request subcommand whose call raises [e]: one call, nothing
    printed, the traceback of [e], status 1. *)
Lemma run_single_call_raises a c r e :
  init w initial = (initial, inr c) ->
  cli_call c a = Some r ->
  (match command a with
   | Cdelete | Ccomplete =>
       match requests_send w [] r with
       | None => e = RequestException
       | Some resp =>
           is_error_status (status_code resp) = true /\ e = HTTPError resp
       end
   | _ => answer' [] r = inl e
   end) ->
  run' a = mk_outcome 1 (mk_state [r] [] [Traceback e]).
Proof.
  intros Hi Hc He. unfold run. rewrite (main_after_init a c _ Hi).
  unfold cli_call in Hc.
  destruct (command a); try discriminate; injection Hc as <-; unfold bind.
  - rewrite list_tasks_runs. cbn [trace initial] in *. rewrite He.
    rewrite (answer_uncaught _ _ _ _ He). reflexivity.
  - rewrite create_task_runs. cbn [trace initial] in *. rewrite He.
    rewrite (answer_uncaught _ _ _ _ He). reflexivity.
  - rewrite delete_task_runs. cbn [trace initial] in *.
    destruct (requests_send w [] (delete_call c (id a))) as [resp|].
    + destruct He as [-> ->]. reflexivity.
    + subst e. reflexivity.
  - rewrite complete_task_runs. cbn [trace initial] in *.
    destruct (requests_send w [] (complete_call c (id a))) as [resp|].
    + destruct He as [-> ->]. reflexivity.
    + subst e. reflexivity.
  - rewrite update_task_runs. cbn [trace initial] in *. rewrite He.
    rewrite (answer_uncaught _ _ _ _ He). reflexivity.
Qed.

(** C6, as the code has it.  When the response to the call of a client
    method has a 4xx or 5xx status, the method raises an HTTPError that
    carries the response, status and body, after that one call; nothing
    catches it, so the subcommand ends with status 1, nothing printed
    and the traceback of that error on standard error. *)
Theorem C6_error_status_raises (c : client) (resp : response) (st : state)
    (task_id : option string)
    (content project_id labels description : pyval) :
  is_error_status (status_code resp) = true ->
  (requests_send w (trace st) (list_call c project_id) = Some resp ->
   list_tasks json_loads w c project_id st
   = (sent st (list_call c project_id), inl (HTTPError resp)))
  /\ (requests_send w (trace st)
        (create_call c content project_id labels description) = Some resp ->
      create_task json_loads w c content project_id labels description st
      = (sent st (create_call c content project_id labels description),
         inl (HTTPError resp)))
  /\ (requests_send w (trace st) (update_call c task_id labels description)
      = Some resp ->
      update_task json_loads w c task_id labels description st
      = (sent st (update_call c task_id labels description),
         inl (HTTPError resp)))
  /\ (requests_send w (trace st) (delete_call c task_id) = Some resp ->
      delete_task w c task_id st
      = (sent st (delete_call c task_id), inl (HTTPError resp)))
  /\ (requests_send w (trace st) (complete_call c task_id) = Some resp ->
      complete_task w c task_id st
      = (sent st (complete_call c task_id), inl (HTTPError resp)))
  /\ (forall a r,
        init w initial = (initial, inr c) ->
        cli_call c a = Some r ->
        requests_send w [] r = Some resp ->
        run' a = mk_outcome 1 (mk_state [r] [] [Traceback (HTTPError resp)])).
Proof.
  intros Herr. repeat split.
  - intros H. rewrite list_tasks_runs. unfold answer.
    rewrite H, Herr. reflexivity.
  - intros H. rewrite create_task_runs. unfold answer.
    rewrite H, Herr. reflexivity.
  - intros H. rewrite update_task_runs. unfold answer.
    rewrite H, Herr. reflexivity.
  - intros H. rewrite delete_task_runs. rewrite H, Herr. reflexivity.
  - intros H. rewrite complete_task_runs. rewrite H, Herr. reflexivity.
  - intros a r Hi Hc H.
    apply (run_single_call_raises a c r _ Hi Hc).
    unfold answer. rewrite H, Herr.
    destruct (command a); auto.
Qed.

(** C10. The create subcommand never looks at [--description]: two
    command lines that differ in it alone end in the same outcome, calls
    to [requests] included, and the body of every call the subcommand
    makes has no description key. *)
Theorem C10_create_ignores_description (a : args) (d1 d2 : option string) :
  command a = Ccreate ->
  run' (with_description a d1) = run' (with_description a d2)
  /\ Forall (fun r => exists body, req_json r = Some (PDict body)
                       /\ dict_has_key body "description" = false)
       (trace (final (run' a))).
Proof.
  intros Hc. split.
  - unfold run, main. cbn [with_description command content project labels].
    rewrite Hc. reflexivity.
  - unfold run. rewrite finish_trace.
    destruct (init_cases initial) as [(t & _ & Hi)|(st' & e & Hi & Ht & _)].
    + rewrite (main_after_init a _ _ Hi), Hc. unfold bind.
      rewrite create_task_runs.
      assert (Hbody : Forall
                (fun r => exists body, req_json r = Some (PDict body)
                          /\ dict_has_key body "description" = false)
                [create_call (new_client (Some t)) (of_opt (content a))
                   (of_opt (project a)) (cli_labels (labels a)) PNone]).
      { constructor; [|constructor]. eexists. split; [reflexivity|].
        apply create_has_description. }
      destruct (answer' _ _); exact Hbody.
    + rewrite (main_init_fails a _ _ _ Hi). cbn [fst]. rewrite Ht.
      constructor.
Qed.

(** ** create-batch *)

Lemma load_not_array path text v st :
  fs w path = Some (Readable text) ->
  json_loads text = Some v ->
  (forall l, v <> PList l) ->
  load_tasks_from_file json_loads w path st
  = (st, inl (ValueError "Batch payload must be a JSON array.")).
Proof.
  intros Hf Hj Hv. unfold load_tasks_from_file, read_file, bind.
  rewrite Hf. cbn. rewrite Hj.
  destruct v; try reflexivity. destruct (Hv l eq_refl).
Qed.

Lemma load_array path text l st :
  fs w path = Some (Readable text) ->
  json_loads text = Some (PList l) ->
  load_tasks_from_file json_loads w path st = (st, inr l).
Proof.
  intros Hf Hj. unfold load_tasks_from_file, read_file, bind.
  rewrite Hf. cbn. rewrite Hj. reflexivity.
Qed.

(** C5. create-batch without [--project], without [--file], or with a
    file whose JSON payload is not an array ends with status 1 without a
    single call to [requests] and without output.  With the credential
    resolved, what is raised is SystemExit with the message for the
    missing flag, respectively the ValueError of [load_tasks_from_file],
    which that function raises for every JSON value that is not an
    array. *)
Theorem C5_batch_input_validation (a : args) :
  command a = Ccreate_batch ->
  (project a = None
   \/ file_arg a = None
   \/ exists path text v,
        file_arg a = Some path /\ fs w path = Some (Readable text)
        /\ json_loads text = Some v /\ forall l, v <> PList l) ->
  (trace (final (run' a)) = [] /\ stdout (final (run' a)) = []
   /\ exit_code (run' a) = 1)
  /\ (forall c, init w initial = (initial, inr c) ->
       (project a = None ->
        main' a initial
        = (initial, inl (SystemExit_msg "create-batch requires --project")))
       /\ (truthy (of_opt (project a)) = true -> file_arg a = None ->
           main' a initial
           = (initial, inl (SystemExit_msg "create-batch requires --file")))
       /\ (forall path text v,
            truthy (of_opt (project a)) = true ->
            file_arg a = Some path -> path <> "" ->
            fs w path = Some (Readable text) ->
            json_loads text = Some v -> (forall l, v <> PList l) ->
            main' a initial
            = (initial,
               inl (ValueError "Batch payload must be a JSON array."))))
  /\ (forall path text v st,
       fs w path = Some (Readable text) ->
       json_loads text = Some v -> (forall l, v <> PList l) ->
       load_tasks_from_file json_loads w path st
       = (st, inl (ValueError "Batch payload must be a JSON array."))).
Proof.
  intros Hc Hbad. split; [|split].
  - unfold run. rewrite finish_trace, finish_stdout.
    destruct (init_cases initial)
      as [(t & _ & Hi)|(st' & e & Hi & Ht & Ho & Hx)].
    + rewrite (main_after_init a _ _ Hi), Hc.
      destruct (negb (truthy (of_opt (project a)))) eqn:Hp;
        [repeat split|].
      destruct (negb (truthy (of_opt (file_arg a)))) eqn:Hf;
        [repeat split|].
      destruct Hbad as [Hb|[Hb|(path & text & v & Hb & Hfs & Hj & Hv)]].
      * rewrite Hb in Hp. discriminate.
      * rewrite Hb in Hf. discriminate.
      * rewrite Hb. cbn [fmt]. unfold bind.
        rewrite (load_not_array _ _ _ _ Hfs Hj Hv). repeat split.
    + rewrite (main_init_fails a _ _ _ Hi). cbn [fst].
      rewrite Ht, Ho. repeat split. exact Hx.
  - intros c Hi. rewrite (main_after_init a _ _ Hi), Hc. repeat split.
    + intros ->. reflexivity.
    + intros -> ->. reflexivity.
    + intros path text v -> -> Hne Hfs Hj Hv. cbn [negb of_opt fmt].
      rewrite truthy_str.
      destruct (String.eqb_spec path ""); [contradiction|]. cbn [negb].
      unfold bind. rewrite (load_not_array _ _ _ _ Hfs Hj Hv). reflexivity.
  - intros path text v st. apply load_not_array.
Qed.

(** One turn of the loop on a dict element. *)
Lemma batch_loop_step c proj d rest created st :
  batch_loop json_loads w c proj (PDict d :: rest) created st
  = match answer' (trace st) (batch_call c proj d) with
    | inr v =>
        batch_loop json_loads w c proj rest (created ++ [v])
          (sent st (batch_call c proj d))
    | inl e => (sent st (batch_call c proj d), inl e)
    end.
Proof.
  cbn [batch_loop py_get]. unfold bind at 1 2 3 4. unfold ret at 1 2 3.
  rewrite create_task_runs. fold (batch_call c proj d).
  destruct (answer' (trace st) (batch_call c proj d)); reflexivity.
Qed.

(** The calls made so far are the calls of the first [k] elements. *)
Lemma batch_loop_prefix c proj ds : forall created st,
  exists k, (k <= length ds)%nat
    /\ fst (batch_loop json_loads w c proj (map PDict ds) created st)
       = mk_state (trace st ++ map (batch_call c proj) (take k ds))
           (stdout st) (stderr st).
Proof.
  induction ds as [|d ds IH]; intros created st.
  - exists 0%nat. split; [reflexivity|]. cbn. rewrite app_nil_r.
    destruct st; reflexivity.
  - cbn [map]. rewrite batch_loop_step.
    destruct (answer' (trace st) (batch_call c proj d)) as [e|v].
    + exists 1%nat. split; [cbn; lia|]. reflexivity.
    + destruct (IH (created ++ [v])%list (sent st (batch_call c proj d)))
        as (k & Hk & ->).
      exists (S k). split; [cbn; lia|].
      cbn [sent trace stdout stderr take map]. rewrite <- app_assoc.
      reflexivity.
Qed.

(** Every call answered: all the calls, all the results, in order. *)
Lemma batch_loop_succeeds c proj ds : forall (results created : list pyval) st,
  length results = length ds ->
  (forall i d, ds !! i = Some d ->
     exists v, results !! i = Some v
       /\ answer' (trace st ++ map (batch_call c proj) (take i ds))
            (batch_call c proj d) = inr v) ->
  batch_loop json_loads w c proj (map PDict ds) created st
  = (mk_state (trace st ++ map (batch_call c proj) ds)
       (stdout st) (stderr st),
     inr (created ++ results)%list).
Proof.
  induction ds as [|d ds IH]; intros results created st Hlen Hok.
  - destruct results; [|discriminate]. cbn. rewrite !app_nil_r.
    destruct st; reflexivity.
  - destruct results as [|v results]; [discriminate|].
    cbn [map]. rewrite batch_loop_step.
    destruct (Hok 0%nat d eq_refl) as (v' & Hv & Ha).
    injection Hv as <-. cbn [take map] in Ha. rewrite app_nil_r in Ha.
    rewrite Ha.
    rewrite (IH results).
    + cbn [sent trace stdout stderr]. rewrite <- !app_assoc. reflexivity.
    + cbn in Hlen. lia.
    + intros i d' Hd. destruct (Hok (S i) d' Hd) as (v' & Hv & Ha').
      exists v'. split; [exact Hv|].
      cbn [sent trace take map] in *. rewrite <- app_assoc. exact Ha'.
Qed.

(** The calls before the failing one answered, that one raising [e]: the
    loop ends there with [e]. *)
Lemma batch_loop_fails c proj ds d rest e :
  forall (results created : list pyval) st,
  length results = length ds ->
  (forall i d', ds !! i = Some d' ->
     exists v, results !! i = Some v
       /\ answer' (trace st ++ map (batch_call c proj) (take i ds))
            (batch_call c proj d') = inr v) ->
  answer' (trace st ++ map (batch_call c proj) ds) (batch_call c proj d)
  = inl e ->
  batch_loop json_loads w c proj (map PDict ds ++ PDict d :: rest) created st
  = (mk_state (trace st ++ map (batch_call c proj) ds ++ [batch_call c proj d])
       (stdout st) (stderr st),
     inl e).
Proof.
  induction ds as [|d0 ds IH]; intros results created st Hlen Hok Hfail.
  - cbn [map app] in *. rewrite app_nil_r in Hfail.
    rewrite batch_loop_step, Hfail. reflexivity.
  - destruct results as [|v results]; [discriminate|].
    cbn [map app]. rewrite batch_loop_step.
    destruct (Hok 0%nat d0 eq_refl) as (v' & Hv & Ha).
    injection Hv as <-. cbn [take map] in Ha. rewrite app_nil_r in Ha.
    rewrite Ha.
    rewrite (IH results).
    + cbn [sent trace stdout stderr]. rewrite <- !app_assoc. reflexivity.
    + cbn in Hlen. lia.
    + intros i d' Hd. destruct (Hok (S i) d' Hd) as (v' & Hv & Ha').
      exists v'. split; [exact Hv|].
      cbn [sent trace take map] in *. rewrite <- app_assoc. exact Ha'.
    + cbn [sent trace map] in *. rewrite <- app_assoc. exact Hfail.
Qed.

(** create-batch once the flags are there and the file holds an array. *)
Lemma main_batch a c P path text batch :
  command a = Ccreate_batch ->
  project a = Some P -> P <> "" ->
  file_arg a = Some path -> path <> "" ->
  init w initial = (initial, inr c) ->
  fs w path = Some (Readable text) ->
  json_loads text = Some (PList batch) ->
  main' a initial
  = (created <- batch_loop json_loads w c (PStr P) batch [] ;;
     print (json_dumps (PList created))) initial.
Proof.
  intros Hc Hp HP Hf Hpath Hi Hfs Hj.
  rewrite (main_after_init a c _ Hi), Hc, Hp, Hf.
  cbn [of_opt fmt]. rewrite !truthy_str.
  destruct (String.eqb_spec P ""); [contradiction|].
  destruct (String.eqb_spec path ""); [contradiction|].
  cbn [negb]. unfold bind at 1. rewrite (load_array _ _ _ _ Hfs Hj).
  reflexivity.
Qed.

(** The hypothesis on the answers, from the calls to the elements. *)
Lemma answers_by_element c proj ds (results : list pyval) h :
  (forall i r, map (batch_call c proj) ds !! i = Some r ->
     exists v, results !! i = Some v
       /\ answer' (take i (map (batch_call c proj) ds)) r = inr v) ->
  h = [] ->
  forall i d, ds !! i = Some d ->
    exists v, results !! i = Some v
      /\ answer' (h ++ map (batch_call c proj) (take i ds))
           (batch_call c proj d) = inr v.
Proof.
  intros H -> i d Hd.
  destruct (H i (batch_call c proj d)) as (v & Hv & Ha).
  - change (map (batch_call c proj) ds) with (batch_call c proj <$> ds).
    rewrite list_lookup_fmap, Hd. reflexivity.
  - exists v. split; [exact Hv|].
    change (map (batch_call c proj)) with (fmap (M:=list) (batch_call c proj))
      in *.
    rewrite fmap_take. exact Ha.
Qed.

(** C3. create-batch on a file holding an array of objects, with
    [--project P]: the calls to [requests] are, at every moment and in
    this order, the create calls of the first elements, the call of an
    element being built from its content, labels and description and from
    [P] as project; when every call is answered, there is one call per
    element, and what is printed is the array of the answers in the order
    of the elements. *)
Theorem C3_batch_in_order (a : args) (c : client) (P path text : string)
    (ds : list (list (string * pyval))) :
  command a = Ccreate_batch ->
  project a = Some P -> P <> "" ->
  file_arg a = Some path -> path <> "" ->
  init w initial = (initial, inr c) ->
  fs w path = Some (Readable text) ->
  json_loads text = Some (PList (map PDict ds)) ->
  let calls := map (batch_call c (PStr P)) ds in
  (exists k, (k <= length ds)%nat /\ trace (final (run' a)) = take k calls)
  /\ Forall (fun r => req_method r = POST
                      /\ req_url r = api_url c +:+ "/tasks"
                      /\ exists body, req_json r = Some (PDict body)
                           /\ dict_get body "project_id" = PStr P) calls
  /\ (forall results : list pyval,
        length results = length ds ->
        (forall i r, calls !! i = Some r ->
           exists v, results !! i = Some v
             /\ answer' (take i calls) r = inr v) ->
        run' a
        = mk_outcome 0 (mk_state calls [json_dumps (PList results)] [])).
Proof.
  intros Hc Hp HP Hf Hpath Hi Hfs Hj calls.
  pose proof (main_batch a c P path text _ Hc Hp HP Hf Hpath Hi Hfs Hj)
    as Hmain.
  split; [|split].
  - destruct (batch_loop_prefix c (PStr P) ds [] initial) as (k & Hk & Hb).
    exists k. split; [exact Hk|].
    unfold run. rewrite finish_trace, Hmain. unfold bind.
    destruct (batch_loop json_loads w c (PStr P) (map PDict ds) [] initial)
      as [st' [e|created]]; cbn [fst] in *; subst st'; cbn [trace print].
    + unfold calls.
      change (map (batch_call c (PStr P)))
        with (fmap (M:=list) (batch_call c (PStr P))).
      rewrite fmap_take. reflexivity.
    + unfold calls.
      change (map (batch_call c (PStr P)))
        with (fmap (M:=list) (batch_call c (PStr P))).
      rewrite fmap_take. reflexivity.
  - unfold calls. apply List.Forall_forall. intros r Hr.
    apply in_map_iff in Hr. destruct Hr as (d & <- & _).
    repeat split. eexists. split; [reflexivity|].
    apply create_get_project.
  - intros results Hlen Hok. unfold run. rewrite Hmain. unfold bind.
    rewrite (batch_loop_succeeds c (PStr P) ds results [] initial Hlen).
    + reflexivity.
    + apply answers_by_element; [exact Hok|reflexivity].
Qed.

(** C4. When the calls of the elements before some element were answered
    and the call of that element raises, the calls to [requests] are
    those and that one, in order, and no other: nothing for the elements
    after it and nothing to undo the tasks created.  The exception is
    not caught: nothing is printed, its traceback goes to standard error
    and the status is 1. *)
Theorem C4_batch_stops_at_first_failure (a : args) (c : client)
    (P path text : string) (ds : list (list (string * pyval)))
    (d : list (string * pyval)) (rest results : list pyval) (e : exn) :
  command a = Ccreate_batch ->
  project a = Some P -> P <> "" ->
  file_arg a = Some path -> path <> "" ->
  init w initial = (initial, inr c) ->
  fs w path = Some (Readable text) ->
  json_loads text = Some (PList (map PDict ds ++ PDict d :: rest)) ->
  let calls := map (batch_call c (PStr P)) ds in
  length results = length ds ->
  (forall i r, calls !! i = Some r ->
     exists v, results !! i = Some v /\ answer' (take i calls) r = inr v) ->
  answer' calls (batch_call c (PStr P) d) = inl e ->
  run' a
  = mk_outcome 1
      (mk_state (calls ++ [batch_call c (PStr P) d]) [] [Traceback e]).
Proof.
  intros Hc Hp HP Hf Hpath Hi Hfs Hj calls Hlen Hok Hfail.
  unfold run.
  rewrite (main_batch a c P path text _ Hc Hp HP Hf Hpath Hi Hfs Hj).
  unfold bind.
  rewrite (batch_loop_fails c (PStr P) ds d rest e results [] initial Hlen).
  - rewrite (answer_uncaught _ _ _ _ Hfail). reflexivity.
  - apply answers_by_element; [exact Hok|reflexivity].
  - exact Hfail.
Qed.

(** * Further properties *)

(** ** The loop of create-batch on any list *)

Lemma finish_traceback e st :
  traceback_exn e = true ->
  finish (st, inl e) = mk_outcome 1 (add_stderr st (Traceback e)).
Proof. destruct e; try discriminate; reflexivity. Qed.

Lemma answer_traceback h r e : answer' h r = inl e -> traceback_exn e = true.
Proof.
  unfold answer. intros H.
  destruct (requests_send w h r) as [resp|].
  - destruct (is_error_status (status_code resp)).
    + injection H as <-. reflexivity.
    + destruct (json_loads (text resp)); [discriminate|].
      injection H as <-. reflexivity.
  - injection H as <-. reflexivity.
Qed.

(** An element that is not a dict has no [get]. *)
Lemma batch_loop_not_dict c proj v rest created st :
  (forall d, v <> PDict d) ->
  batch_loop json_loads w c proj (v :: rest) created st
  = (st, inl AttributeError).
Proof.
  intros Hv. destruct v; try reflexivity. destruct (Hv d eq_refl).
Qed.

Lemma state_eta st ds c proj :
  ds = [] ->
  mk_state (trace st ++ map (batch_call c proj) ds) (stdout st) (stderr st)
  = st.
Proof. intros ->. cbn. rewrite app_nil_r. destruct st; reflexivity. Qed.

(** Whatever the list: the calls are those of the dicts [ds] at its
    head, nothing is printed; either the loop returns, [ds] is the whole
    list and there is a result per element, or it raises. *)
Lemma batch_loop_shape c proj batch : forall (created : list pyval) st,
  exists ds,
    (exists results : list pyval,
       batch = map PDict ds /\ length results = length ds
       /\ batch_loop json_loads w c proj batch created st
          = (mk_state (trace st ++ map (batch_call c proj) ds)
               (stdout st) (stderr st),
             inr (created ++ results)%list))
    \/ (exists e,
          traceback_exn e = true /\ (length ds <= length batch)%nat
          /\ batch_loop json_loads w c proj batch created st
             = (mk_state (trace st ++ map (batch_call c proj) ds)
                  (stdout st) (stderr st),
                inl e)).
Proof.
  induction batch as [|v batch IH]; intros created st.
  - exists []. left. exists []. rewrite state_eta, app_nil_r by reflexivity.
    repeat split.
  - assert (Hd : (exists d, v = PDict d) \/ (forall d, v <> PDict d)).
    { destruct v; try (right; discriminate). left. eauto. }
    destruct Hd as [[d ->]|Hv].
    + rewrite batch_loop_step.
      destruct (answer' (trace st) (batch_call c proj d)) as [e|x] eqn:Ha.
      * exists [d]. right. exists e. split; [|split; [cbn; lia|reflexivity]].
        exact (answer_traceback _ _ _ Ha).
      * destruct (IH (created ++ [x])%list (sent st (batch_call c proj d)))
          as (ds & [(results & -> & Hlen & Hrun)|(e & He & Hle & Hrun)]).
        -- exists (d :: ds). left. exists (x :: results).
           rewrite Hrun. cbn [sent trace stdout stderr map length].
           rewrite <- !app_assoc. repeat split. now rewrite Hlen.
        -- exists (d :: ds). right. exists e.
           split; [exact He|split; [cbn; lia|]].
           rewrite Hrun. cbn [sent trace stdout stderr map].
           rewrite <- !app_assoc. reflexivity.
    + exists []. right. exists AttributeError.
      split; [reflexivity|split; [cbn; lia|]].
      rewrite state_eta by reflexivity.
      apply batch_loop_not_dict, Hv.
Qed.

(** ** Every run, whatever the subcommand *)

(** [TodoistClient()] at the start of the script. *)
Lemma init_at_start :
  (exists t, t <> "" /\ resolve_in_order w = Match t
             /\ init w initial = (initial, inr (new_client (Some t))))
  \/ (exists st' e d, init w initial = (st', inl e)
                      /\ finish (st', inl e)
                         = mk_outcome 1 (mk_state [] [] [d])).
Proof.
  rewrite init_resolves.
  destruct (resolve_in_order w) as [|t| |].
  - right. eexists _, _, _. split; reflexivity.
  - destruct (String.eqb t "") eqn:Et.
    + right. eexists _, _, _. split; reflexivity.
    + left. exists t. repeat split. intros ->. discriminate.
  - right. eexists _, _, _. split; reflexivity.
  - right. eexists _, _, _. split; reflexivity.
Qed.

Lemma ends_with_raise tr e :
  traceback_exn e = true ->
  ends_with (finish (mk_state tr [] [], inl e)) tr.
Proof. intros H. right. rewrite (finish_traceback _ _ H). eauto. Qed.

(** The calls of a run: none, the one call of the subcommand, or the
    create calls of dicts for create-batch. *)
Lemma run_shape a :
  exists tr,
    ends_with (run' a) tr
    /\ (tr = []
        \/ exists t,
             t <> "" /\ resolve_in_order w = Match t
             /\ ((exists r, cli_call (new_client (Some t)) a = Some r
                            /\ tr = [r])
                 \/ (command a = Ccreate_batch
                     /\ exists ds,
                          tr = map (batch_call (new_client (Some t))
                                      (of_opt (project a))) ds))).
Proof.
  unfold run.
  destruct init_at_start as [(t & Ht & Hr & Hi)|(st' & e & d & Hi & Hf)].
  2:{ exists []. rewrite (main_init_fails a _ _ _ Hi), Hf.
      split; [right; eauto|left; reflexivity]. }
  rewrite (main_after_init a _ _ Hi). unfold cli_call.
  destruct (command a) eqn:Hc.
  - eexists. split; [|right; exists t; repeat split; eauto].
    unfold bind. rewrite list_tasks_runs.
    destruct (answer' _ _) as [e|v] eqn:Ha.
    + apply ends_with_raise, (answer_traceback _ _ _ Ha).
    + left. eexists. reflexivity.
  - eexists. split; [|right; exists t; repeat split; eauto].
    unfold bind. rewrite create_task_runs.
    destruct (answer' _ _) as [e|v] eqn:Ha.
    + apply ends_with_raise, (answer_traceback _ _ _ Ha).
    + left. eexists. reflexivity.
  - destruct (negb (truthy (of_opt (project a)))).
    { exists []. split; [right; eexists; reflexivity|left; reflexivity]. }
    destruct (negb (truthy (of_opt (file_arg a)))).
    { exists []. split; [right; eexists; reflexivity|left; reflexivity]. }
    unfold bind at 1.
    destruct (load_tasks_from_file json_loads w (fmt (file_arg a)) initial)
      as [st1 [e|batch]] eqn:Hl.
    + exists []. split; [|left; reflexivity].
      revert Hl. unfold load_tasks_from_file, read_file, bind, ret, raise.
      destruct (fs w (fmt (file_arg a))) as [[text| |]|];
        try (intros [= <- <-]; apply ends_with_raise; reflexivity).
      destruct (json_loads text) as [[]|];
        intros [= <- <-]; apply ends_with_raise; reflexivity.
    + assert (st1 = initial) as ->.
      { revert Hl. unfold load_tasks_from_file, read_file, bind, ret, raise.
        destruct (fs w (fmt (file_arg a))) as [[text| |]|];
          try discriminate.
        destruct (json_loads text) as [[]|]; try discriminate.
        now intros [= <- _]. }
      destruct (batch_loop_shape (new_client (Some t)) (of_opt (project a))
                  batch [] initial)
        as (ds & [(results & -> & Hlen & Hrun)|(e & He & _ & Hrun)]).
      * exists (map (batch_call (new_client (Some t)) (of_opt (project a)))
                  ds).
        split; [|right; exists t; repeat split; eauto].
        unfold bind. rewrite Hrun. left. eexists. reflexivity.
      * exists (map (batch_call (new_client (Some t)) (of_opt (project a)))
                  ds).
        split; [|right; exists t; repeat split; eauto].
        unfold bind. rewrite Hrun. apply ends_with_raise, He.
  - eexists. split; [|right; exists t; repeat split; eauto].
    unfold bind. rewrite delete_task_runs. cbn [trace initial].
    destruct (requests_send w [] _) as [resp|].
    + destruct (is_error_status (status_code resp)).
      * apply ends_with_raise. reflexivity.
      * left. eexists. reflexivity.
    + apply ends_with_raise. reflexivity.
  - eexists. split; [|right; exists t; repeat split; eauto].
    unfold bind. rewrite complete_task_runs. cbn [trace initial].
    destruct (requests_send w [] _) as [resp|].
    + destruct (is_error_status (status_code resp)).
      * apply ends_with_raise. reflexivity.
      * left. eexists. reflexivity.
    + apply ends_with_raise. reflexivity.
  - eexists. split; [|right; exists t; repeat split; eauto].
    unfold bind. rewrite update_task_runs.
    destruct (answer' _ _) as [e|v] eqn:Ha.
    + apply ends_with_raise, (answer_traceback _ _ _ Ha).
    + left. eexists. reflexivity.
Qed.

Lemma ends_with_trace o tr : ends_with o tr -> trace (final o) = tr.
Proof. intros [[l ->]|[d ->]]; reflexivity. Qed.

(** X1. Every call a run makes goes to the tasks endpoint of the fixed
    base URL and carries the two headers, the bearer token being the one
    the credential resolution produced, never an empty one. *)
Theorem every_call_authenticated (a : args) :
  Forall (fun r =>
            exists t suffix,
              t <> "" /\ resolve_in_order w = Match t
              /\ req_headers r = [("Authorization", "Bearer " +:+ t);
                                  ("Content-Type", "application/json")]
              /\ req_url r
                 = "https://api.todoist.com/rest/v2/tasks" +:+ suffix)
    (trace (final (run' a))).
Proof.
  destruct (run_shape a) as (tr & He & Htr).
  rewrite (ends_with_trace _ _ He).
  destruct Htr as [->|(t & Ht & Hr & [(r & Hc & ->)|(_ & ds & ->)])].
  - constructor.
  - constructor; [|constructor]. exists t.
    unfold cli_call in Hc.
    destruct (command a); try discriminate; injection Hc as <-.
    + exists "". repeat split; assumption.
    + exists "". repeat split; assumption.
    + exists ("/" +:+ fmt (id a)). repeat split; assumption.
    + exists ("/" +:+ fmt (id a) +:+ "/close"). repeat split; assumption.
    + exists ("/" +:+ fmt (id a)). repeat split; assumption.
  - apply List.Forall_forall. intros r Hin.
    apply in_map_iff in Hin. destruct Hin as (d & <- & _).
    exists t, "". repeat split; assumption.
Qed.

(** X2. The calls of a run all use the method of its subcommand: GET
    for list, DELETE for delete, POST for the others.  So list never
    changes anything remotely and only delete deletes. *)
Theorem calls_use_the_subcommand_method (a : args) :
  Forall (fun r => req_method r = expected_method (command a))
    (trace (final (run' a))).
Proof.
  destruct (run_shape a) as (tr & He & Htr).
  rewrite (ends_with_trace _ _ He).
  destruct Htr as [->|(t & _ & _ & [(r & Hc & ->)|(Hb & ds & ->)])].
  - constructor.
  - constructor; [|constructor]. unfold cli_call in Hc.
    destruct (command a); try discriminate; injection Hc as <-; reflexivity.
  - rewrite Hb. apply List.Forall_forall. intros r Hin.
    apply in_map_iff in Hin. destruct Hin as (d & <- & _). reflexivity.
Qed.

(** X3. A subcommand other than create-batch makes at most one call,
    whatever is answered: none when no token is found, and exactly its
    one call once the client exists, whichever flags are missing. *)
Theorem single_call_exactly_once (a : args) :
  single_call (command a) = true ->
  (length (trace (final (run' a))) <= 1)%nat
  /\ (forall c, init w initial = (initial, inr c) ->
       exists r, cli_call c a = Some r /\ trace (final (run' a)) = [r]).
Proof.
  intros Hs. destruct (run_shape a) as (tr & He & Htr).
  rewrite (ends_with_trace _ _ He).
  destruct Htr as [->|(t & _ & Hr & [(r & Hc & ->)|(Hb & _)])].
  - split; [cbn; lia|]. intros c Hi.
    pose proof (init_resolves initial) as H. rewrite Hi in H.
    assert (Hex : exists r, cli_call c a = Some r).
    { unfold cli_call. destruct (command a); try discriminate; eauto. }
    destruct Hex as (r & Hc). exists r. split; [exact Hc|].
    unfold run in He. rewrite (main_after_init a c _ Hi) in He.
    apply ends_with_trace in He. rewrite finish_trace in He.
    unfold cli_call in Hc. revert He.
    destruct (command a); try discriminate; injection Hc as <-;
      unfold bind;
      rewrite ?list_tasks_runs, ?create_task_runs, ?update_task_runs,
        ?delete_task_runs, ?complete_task_runs; cbn [trace initial];
      repeat match goal with
             | |- context [match ?x with _ => _ end] => destruct x
             end; discriminate.
  - split; [cbn; lia|]. intros c Hi.
    pose proof (init_resolves initial) as H. rewrite Hi, Hr in H.
    destruct (String.eqb t ""); [discriminate|].
    injection H as ->. eauto.
  - rewrite Hb in Hs. discriminate.
Qed.

(** X4. Once the command line is parsed, the script ends in one of two
    ways: status 0 after exactly one call of [print] on standard output
    (one text, of one line or of many) and nothing on standard error, or
    status 1 with nothing on standard output and exactly one diagnostic,
    a message or a traceback, on standard error. *)
Theorem run_status_and_output (a : args) :
  (exit_code (run' a) = 0
   /\ (exists printed, stdout (final (run' a)) = [printed])
   /\ stderr (final (run' a)) = [])
  \/ (exit_code (run' a) = 1
      /\ stdout (final (run' a)) = []
      /\ exists d, stderr (final (run' a)) = [d]).
Proof.
  destruct (run_shape a) as (tr & [[line ->]|[d ->]] & _).
  - left. repeat split. eauto.
  - right. repeat split. eauto.
Qed.

(** ** The single-call subcommands, answer by answer *)

(** X5. list, create and update, once the client exists: the one call
    is made; when it is answered without an error status and the body
    parses, the parsed value is printed and the status is 0; in every
    other case (no response, error status, a body that is not JSON such
    as an empty one) nothing is printed and the status is 1, the call
    having been made. *)
Theorem json_subcommand_outcome (a : args) (c : client) (r : request) :
  command a = Clist \/ command a = Ccreate \/ command a = Cupdate ->
  init w initial = (initial, inr c) ->
  cli_call c a = Some r ->
  run' a
  = match requests_send w [] r with
    | None => mk_outcome 1 (mk_state [r] [] [Traceback RequestException])
    | Some resp =>
        if is_error_status (status_code resp)
        then mk_outcome 1 (mk_state [r] [] [Traceback (HTTPError resp)])
        else match json_loads (text resp) with
             | Some v => mk_outcome 0 (mk_state [r] [json_dumps v] [])
             | None => mk_outcome 1 (mk_state [r] [] [Traceback JSONDecodeError])
             end
    end.
Proof.
  intros Hcmd Hi Hc. unfold run. rewrite (main_after_init a c _ Hi).
  unfold cli_call in Hc.
  destruct (command a);
    try (destruct Hcmd as [?|[?|?]]; discriminate);
    injection Hc as <-; unfold bind;
    rewrite ?list_tasks_runs, ?create_task_runs, ?update_task_runs;
    unfold answer; cbn [trace initial];
    (destruct (requests_send w [] _) as [resp|]; [|reflexivity]);
    (destruct (is_error_status (status_code resp)); [reflexivity|]);
    destruct (json_loads (text resp)); reflexivity.
Qed.

(** X6. delete and complete, once the client exists: any response
    without an error status counts as success, whatever its body; the
    confirmation line names the id given, the word None when [--id] is
    missing, and the call goes to that path. *)
Theorem confirmation_subcommand_outcome (a : args) (c : client) :
  init w initial = (initial, inr c) ->
  (command a = Cdelete ->
   run' a
   = match requests_send w [] (delete_call c (id a)) with
     | None =>
         mk_outcome 1
           (mk_state [delete_call c (id a)] [] [Traceback RequestException])
     | Some resp =>
         if is_error_status (status_code resp)
         then mk_outcome 1
                (mk_state [delete_call c (id a)] []
                   [Traceback (HTTPError resp)])
         else mk_outcome 0
                (mk_state [delete_call c (id a)]
                   ["Deleted " +:+ fmt (id a)] [])
     end)
  /\ (command a = Ccomplete ->
      run' a
      = match requests_send w [] (complete_call c (id a)) with
        | None =>
            mk_outcome 1
              (mk_state [complete_call c (id a)] []
                 [Traceback RequestException])
        | Some resp =>
            if is_error_status (status_code resp)
            then mk_outcome 1
                   (mk_state [complete_call c (id a)] []
                      [Traceback (HTTPError resp)])
            else mk_outcome 0
                   (mk_state [complete_call c (id a)]
                      ["Completed " +:+ fmt (id a)] [])
        end).
Proof.
  intros Hi. unfold run. rewrite (main_after_init a c _ Hi).
  split; intros ->; unfold bind;
    rewrite ?delete_task_runs, ?complete_task_runs; cbn [trace initial];
    (destruct (requests_send w [] _) as [resp|]; [|reflexivity]);
    destruct (is_error_status (status_code resp)); reflexivity.
Qed.

(** ** The batch file and the batch *)

(** X7. [load_tasks_from_file] touches nothing of the process state.  It
    returns a list exactly when the file can be read and its text is a
    JSON array, and then it returns that array; a path that is missing or
    cannot be opened raises OSError, a file whose bytes are not text
    raises UnicodeDecodeError, and a text that is not JSON raises
    JSONDecodeError. *)
Theorem load_tasks_from_file_cases (path : string) (st : state) :
  fst (load_tasks_from_file json_loads w path st) = st
  /\ (forall l,
        snd (load_tasks_from_file json_loads w path st) = inr l
        <-> exists text, fs w path = Some (Readable text)
                         /\ json_loads text = Some (PList l))
  /\ ((fs w path = None \/ fs w path = Some Unreadable) ->
      snd (load_tasks_from_file json_loads w path st) = inl OSError)
  /\ (fs w path = Some Undecodable ->
      snd (load_tasks_from_file json_loads w path st)
      = inl UnicodeDecodeError)
  /\ (forall text, fs w path = Some (Readable text) ->
                   json_loads text = None ->
                   snd (load_tasks_from_file json_loads w path st)
                   = inl JSONDecodeError).
Proof.
  unfold load_tasks_from_file, read_file, bind, ret, raise.
  destruct (fs w path) as [[text| |]|] eqn:Hf; cbn [fst snd].
  - destruct (json_loads text) as [v|] eqn:Hj.
    + destruct v; cbn [fst snd]; repeat split;
        try (intros H; discriminate H);
        try (intros (text' & [= <-] & Hj'); rewrite Hj in Hj'; discriminate);
        try (intros [H|H]; discriminate H);
        try (intros text' [= <-] Hj'; rewrite Hj in Hj'; discriminate).
      * intros [= <-]. eauto.
      * intros (text' & [= <-] & Hj'). rewrite Hj in Hj'.
        injection Hj' as <-. reflexivity.
    + cbn [fst snd]. repeat split;
        try (intros H; discriminate H);
        try (intros (text' & [= <-] & Hj'); rewrite Hj in Hj'; discriminate);
        try (intros [H|H]; discriminate H).
  - repeat split; try (intros H; discriminate H);
      try (intros (text' & H & _); discriminate H);
      try (intros [H|H]; discriminate H).
    intros text' H. discriminate H.
  - repeat split; try (intros H; discriminate H);
      try (intros (text' & H & _); discriminate H);
      try (intros [H|H]; discriminate H).
    intros text' H. discriminate H.
  - repeat split; try (intros H; discriminate H);
      try (intros (text' & H & _); discriminate H);
      try (intros [H|H]; discriminate H).
    intros text' H. discriminate H.
Qed.

(** create-batch ends before the loop with one diagnostic, or reaches the
    loop with a token, both flags and an array read from the file. *)
Lemma run_batch_cases a :
  command a = Ccreate_batch ->
  (exists d, run' a = mk_outcome 1 (mk_state [] [] [d]))
  \/ (exists t P path text batch,
        t <> "" /\ resolve_in_order w = Match t
        /\ project a = Some P /\ P <> ""
        /\ file_arg a = Some path /\ path <> ""
        /\ fs w path = Some (Readable text)
        /\ json_loads text = Some (PList batch)
        /\ main' a initial
           = (created <- batch_loop json_loads w (new_client (Some t))
                           (PStr P) batch [] ;;
              print (json_dumps (PList created))) initial).
Proof.
  intros Hc. unfold run.
  destruct init_at_start as [(t & Ht & Hr & Hi)|(st' & e & d & Hi & Hf)].
  2:{ left. exists d. rewrite (main_init_fails a _ _ _ Hi). exact Hf. }
  destruct (project a) as [P|] eqn:Hp.
  2:{ left. rewrite (main_after_init a _ _ Hi), Hc, Hp.
      eexists. reflexivity. }
  destruct (String.eqb_spec P "") as [->|HP].
  { left. rewrite (main_after_init a _ _ Hi), Hc, Hp.
    eexists. reflexivity. }
  destruct (file_arg a) as [path|] eqn:Hfa.
  2:{ left. rewrite (main_after_init a _ _ Hi), Hc, Hp, Hfa.
      cbn [of_opt]. rewrite truthy_str.
      destruct (String.eqb_spec P ""); [contradiction|].
      eexists. reflexivity. }
  destruct (String.eqb_spec path "") as [->|Hpath].
  { left. rewrite (main_after_init a _ _ Hi), Hc, Hp, Hfa.
    cbn [of_opt]. rewrite truthy_str.
    destruct (String.eqb_spec P ""); [contradiction|].
    eexists. reflexivity. }
  assert (Hpre : main' a initial
                 = (batch <- load_tasks_from_file json_loads w path ;;
                    created <- batch_loop json_loads w (new_client (Some t))
                                 (PStr P) batch [] ;;
                    print (json_dumps (PList created))) initial).
  { rewrite (main_after_init a _ _ Hi), Hc, Hp, Hfa.
    cbn [of_opt fmt]. rewrite !truthy_str.
    destruct (String.eqb_spec P ""); [contradiction|].
    destruct (String.eqb_spec path ""); [contradiction|]. reflexivity. }
  destruct (fs w path) as [[text| |]|] eqn:Hfs.
  - destruct (json_loads text) as [v|] eqn:Hj.
    + assert (Hv : (exists l, v = PList l) \/ (forall l, v <> PList l)).
      { destruct v; try (right; discriminate). left. eauto. }
      destruct Hv as [[batch ->]|Hv].
      * right. exists t, P, path, text, batch. repeat split; try assumption.
        apply (main_batch a _ P path text batch); assumption.
      * left. rewrite Hpre. unfold bind at 1.
        rewrite (load_not_array _ _ _ _ Hfs Hj Hv). eexists. reflexivity.
    + left. rewrite Hpre. unfold bind at 1.
      unfold load_tasks_from_file, read_file, bind. rewrite Hfs. cbn.
      rewrite Hj. eexists. reflexivity.
  - left. rewrite Hpre. unfold bind at 1.
    unfold load_tasks_from_file, read_file, bind. rewrite Hfs.
    eexists. reflexivity.
  - left. rewrite Hpre. unfold bind at 1.
    unfold load_tasks_from_file, read_file, bind. rewrite Hfs.
    eexists. reflexivity.
  - left. rewrite Hpre. unfold bind at 1.
    unfold load_tasks_from_file, read_file, bind. rewrite Hfs.
    eexists. reflexivity.
Qed.

(** X8. create-batch calls [requests] only when everything before the
    loop is in order: a token was found, [--project] and [--file] are
    given and not empty, the file can be read, and its text is a JSON
    array that is not empty. *)
Theorem batch_calls_need_valid_input (a : args) :
  command a = Ccreate_batch ->
  trace (final (run' a)) <> [] ->
  exists t P path text batch,
    t <> "" /\ resolve_in_order w = Match t
    /\ project a = Some P /\ P <> ""
    /\ file_arg a = Some path /\ path <> ""
    /\ fs w path = Some (Readable text)
    /\ json_loads text = Some (PList batch)
    /\ batch <> [].
Proof.
  intros Hc Htr.
  destruct (run_batch_cases a Hc)
    as [(d & Hrun)
       |(t & P & path & text & batch & Ht & Hr & Hp & HP & Hf & Hpath
          & Hfs & Hj & Hmain)].
  - rewrite Hrun in Htr. contradiction.
  - exists t, P, path, text, batch. repeat split; try assumption.
    intros ->. apply Htr. unfold run. rewrite Hmain. reflexivity.
Qed.

(** X10. A create-batch run that ends with status 0 made it through the
    whole file: every element of the array is an object, there is one
    call per element, in order, and the printed array has as many
    entries. *)
Theorem batch_success_is_complete (a : args) :
  command a = Ccreate_batch ->
  exit_code (run' a) = 0 ->
  exists t P path text ds (results : list pyval),
    resolve_in_order w = Match t
    /\ project a = Some P /\ file_arg a = Some path
    /\ fs w path = Some (Readable text)
    /\ json_loads text = Some (PList (map PDict ds))
    /\ length results = length ds
    /\ run' a
       = mk_outcome 0
           (mk_state (map (batch_call (new_client (Some t)) (PStr P)) ds)
              [json_dumps (PList results)] []).
Proof.
  intros Hc Hx.
  destruct (run_batch_cases a Hc)
    as [(d & Hrun)
       |(t & P & path & text & batch & Ht & Hr & Hp & HP & Hf & Hpath
          & Hfs & Hj & Hmain)].
  - rewrite Hrun in Hx. discriminate.
  - destruct (batch_loop_shape (new_client (Some t)) (PStr P) batch []
                initial)
      as (ds & [(results & -> & Hlen & Hrun)|(e & He & _ & Hrun)]).
    + exists t, P, path, text, ds, results. repeat split; try assumption.
      unfold run. rewrite Hmain. unfold bind. rewrite Hrun. reflexivity.
    + unfold run in Hx. rewrite Hmain in Hx. unfold bind in Hx.
      rewrite Hrun, (finish_traceback _ _ He) in Hx. discriminate.
Qed.

(** The elements before [v] answered, [v] not a dict: the loop ends at
    [v] without a call for it. *)
Lemma batch_loop_bad_element c proj ds v rest :
  forall (results created : list pyval) st,
  (forall d, v <> PDict d) ->
  length results = length ds ->
  (forall i d', ds !! i = Some d' ->
     exists x, results !! i = Some x
       /\ answer' (trace st ++ map (batch_call c proj) (take i ds))
            (batch_call c proj d') = inr x) ->
  batch_loop json_loads w c proj (map PDict ds ++ v :: rest) created st
  = (mk_state (trace st ++ map (batch_call c proj) ds)
       (stdout st) (stderr st),
     inl AttributeError).
Proof.
  induction ds as [|d0 ds IH]; intros results created st Hv Hlen Hok.
  - rewrite state_eta by reflexivity. cbn [map app].
    apply batch_loop_not_dict, Hv.
  - destruct results as [|x results]; [discriminate|].
    cbn [map app]. rewrite batch_loop_step.
    destruct (Hok 0%nat d0 eq_refl) as (x' & Hx & Ha).
    injection Hx as <-. cbn [take map] in Ha. rewrite app_nil_r in Ha.
    rewrite Ha.
    rewrite (IH results).
    + cbn [sent trace stdout stderr]. rewrite <- !app_assoc. reflexivity.
    + exact Hv.
    + cbn in Hlen. lia.
    + intros i d' Hd. destruct (Hok (S i) d' Hd) as (x' & Hx & Ha').
      exists x'. split; [exact Hx|].
      cbn [sent trace take map] in *. rewrite <- app_assoc. exact Ha'.
Qed.

(** X9. An element of the array that is not an object stops create-batch
    with an AttributeError: the calls of the elements before it were made
    and answered, no call is made for it or for anything after it,
    nothing is printed and the status is 1. *)
Theorem batch_stops_at_non_object (a : args) (c : client)
    (P path text : string) (ds : list (list (string * pyval)))
    (v : pyval) (rest results : list pyval) :
  command a = Ccreate_batch ->
  project a = Some P -> P <> "" ->
  file_arg a = Some path -> path <> "" ->
  init w initial = (initial, inr c) ->
  fs w path = Some (Readable text) ->
  json_loads text = Some (PList (map PDict ds ++ v :: rest)) ->
  (forall d, v <> PDict d) ->
  length results = length ds ->
  (forall i r, map (batch_call c (PStr P)) ds !! i = Some r ->
     exists x, results !! i = Some x
       /\ answer' (take i (map (batch_call c (PStr P)) ds)) r = inr x) ->
  run' a
  = mk_outcome 1
      (mk_state (map (batch_call c (PStr P)) ds) []
         [Traceback AttributeError]).
Proof.
  intros Hc Hp HP Hf Hpath Hi Hfs Hj Hv Hlen Hok.
  unfold run.
  rewrite (main_batch a c P path text _ Hc Hp HP Hf Hpath Hi Hfs Hj).
  unfold bind.
  rewrite (batch_loop_bad_element c (PStr P) ds v rest results [] initial
             Hv Hlen).
  - reflexivity.
  - apply answers_by_element; [exact Hok|reflexivity].
Qed.

(** X11. An empty array is a success without a call: create-batch
    prints the empty array and ends with status 0. *)
Theorem batch_of_nothing (a : args) (c : client) (P path text : string) :
  command a = Ccreate_batch ->
  project a = Some P -> P <> "" ->
  file_arg a = Some path -> path <> "" ->
  init w initial = (initial, inr c) ->
  fs w path = Some (Readable text) ->
  json_loads text = Some (PList []) ->
  run' a = mk_outcome 0 (mk_state [] [json_dumps (PList [])] []).
Proof.
  intros Hc Hp HP Hf Hpath Hi Hfs Hj. unfold run.
  rewrite (main_batch a c P path text _ Hc Hp HP Hf Hpath Hi Hfs Hj).
  reflexivity.
Qed.

(** ** Strings: the labels flag and the secret files *)

Lemma string_of_list_ascii_app (x y : list ascii) :
  string_of_list_ascii (x ++ y)
  = string_of_list_ascii x +:+ string_of_list_ascii y.
Proof. induction x as [|c x IH]; cbn; [reflexivity|]. now rewrite IH. Qed.

Lemma split_go_cons sep cur s :
  exists f fs, split_go sep cur s = f :: fs.
Proof.
  revert cur. induction s as [|c s IH]; intros cur; cbn; eauto.
  destruct (Ascii.eqb c sep); eauto.
Qed.

Lemma join_split_go sep s : forall cur,
  join sep (split_go sep cur s) = string_of_list_ascii (rev cur ++ s).
Proof.
  induction s as [|c s IH]; intros cur.
  - cbn. now rewrite app_nil_r.
  - cbn [split_go]. destruct (Ascii.eqb_spec c sep) as [->|Hne].
    + destruct (split_go_cons sep [] s) as (f & fs & Hs).
      cbn [join]. rewrite Hs, <- Hs, (IH []). cbn [rev app].
      rewrite string_of_list_ascii_app. reflexivity.
    + rewrite (IH (c :: cur)). cbn [rev]. rewrite <- app_assoc. reflexivity.
Qed.

Lemma split_go_fields sep s : forall cur,
  ~ In sep cur ->
  Forall (fun f => ~ In sep (list_ascii_of_string f)) (split_go sep cur s).
Proof.
  induction s as [|c s IH]; intros cur Hcur; cbn [split_go].
  - constructor; [|constructor].
    rewrite list_ascii_of_string_of_list_ascii, <- in_rev. exact Hcur.
  - destruct (Ascii.eqb_spec c sep) as [->|Hne].
    + constructor; [|apply IH; intros []].
      rewrite list_ascii_of_string_of_list_ascii, <- in_rev. exact Hcur.
    + apply IH. intros [->|H]; [now apply Hne|now apply Hcur].
Qed.

Lemma split_nonempty sep s : split sep s <> [].
Proof.
  unfold split.
  destruct (split_go_cons sep [] (list_ascii_of_string s)) as (f & fs & ->).
  discriminate.
Qed.

(** X12. [split] and [join] are inverse: joining the fields with the
    separator gives the string back; there is always at least one field
    and no field contains the separator.  So the labels flag loses
    nothing: the labels sent, joined by commas, are the text given. *)
Theorem split_join_round_trip (sep : ascii) (s : string) :
  join sep (split sep s) = s
  /\ split sep s <> []
  /\ Forall (fun f => ~ In sep (list_ascii_of_string f)) (split sep s).
Proof.
  split; [|split]; [unfold split| |unfold split].
  - rewrite join_split_go. cbn [rev app].
    apply string_of_list_ascii_of_string.
  - apply split_nonempty.
  - apply split_go_fields. intros [].
Qed.

Lemma cli_labels_truthy l : truthy (cli_labels l) = truthy (of_opt l).
Proof.
  destruct l as [s|]; [|reflexivity]. unfold cli_labels.
  destruct (truthy (PStr s)) eqn:Hs; cbn [of_opt]; rewrite Hs; [|reflexivity].
  unfold split.
  destruct (split_go_cons "," [] (list_ascii_of_string s)) as (f & fs & ->).
  reflexivity.
Qed.

Lemma cli_labels_not_none l : is_not_none (cli_labels l) = truthy (of_opt l).
Proof.
  destruct l as [s|]; [|reflexivity]. unfold cli_labels. cbn [of_opt].
  destruct (truthy (PStr s)); reflexivity.
Qed.

(** The one call of a single-call subcommand, whatever the answer. *)
Lemma single_call_trace a c r :
  init w initial = (initial, inr c) ->
  cli_call c a = Some r ->
  trace (final (run' a)) = [r].
Proof.
  intros Hi Hc. unfold run. rewrite finish_trace, (main_after_init a c _ Hi).
  unfold cli_call in Hc.
  destruct (command a); try discriminate; injection Hc as <-; unfold bind;
    rewrite ?list_tasks_runs, ?create_task_runs, ?update_task_runs,
      ?delete_task_runs, ?complete_task_runs; cbn [trace initial];
    repeat match goal with
           | |- context [match ?x with _ => _ end] => destruct x
           end; reflexivity.
Qed.

(** X13. The update subcommand: the body of its call has a labels key
    exactly when [--labels] is given and not empty, and then the value is
    the list of the comma-separated fields, never an empty list; it has a
    description key exactly when [--description] is given, the empty text
    included, with the text as value.  From the command line the
    description can be emptied, the labels cannot. *)
Theorem update_flags_to_body (a : args) (c : client) :
  command a = Cupdate ->
  init w initial = (initial, inr c) ->
  exists body,
    trace (final (run' a))
    = [mk_request POST (api_url c +:+ "/tasks/" +:+ fmt (id a)) (headers c)
         None (Some (PDict body))]
    /\ dict_has_key body "labels" = truthy (of_opt (labels a))
    /\ (forall s, labels a = Some s -> s <> "" ->
         dict_get body "labels" = PList (map PStr (split "," s))
         /\ split "," s <> [])
    /\ dict_has_key body "description"
       = is_not_none (of_opt (description a))
    /\ dict_get body "description" = of_opt (description a).
Proof.
  intros Hc Hi.
  exists (update_task_data (cli_labels (labels a)) (of_opt (description a))).
  split; [|split; [|split; [|split]]].
  - apply (single_call_trace a c); [exact Hi|].
    unfold cli_call. rewrite Hc. reflexivity.
  - rewrite update_has_labels. apply cli_labels_not_none.
  - intros s Hs Hne. rewrite update_get_labels, Hs. unfold cli_labels.
    rewrite truthy_str. destruct (String.eqb_spec s ""); [contradiction|].
    split; [reflexivity|]. apply split_nonempty.
  - apply update_has_description.
  - apply update_get_description.
Qed.

Lemma create_get_content ct p l d :
  dict_get (create_task_data ct p l d) "content" = ct.
Proof.
  unfold create_task_data.
  destruct (truthy l), (truthy d); reflexivity.
Qed.

Lemma create_get_labels ct p l d :
  dict_get (create_task_data ct p l d) "labels"
  = if truthy l then l else PNone.
Proof.
  unfold create_task_data.
  destruct (truthy l), (truthy d); reflexivity.
Qed.

Lemma create_has_required ct p l d :
  dict_has_key (create_task_data ct p l d) "content" = true
  /\ dict_has_key (create_task_data ct p l d) "project_id" = true.
Proof.
  unfold create_task_data.
  destruct (truthy l), (truthy d); split; reflexivity.
Qed.

(** X14. The create subcommand checks no flag: its call is made once the
    client exists, and the body always has the keys content and
    project_id, present even for a flag that is missing, holding the text
    given or null; it has a labels key exactly when [--labels] is given
    and not empty, with the comma-separated fields as value, and never a
    description key. *)
Theorem create_flags_to_body (a : args) (c : client) :
  command a = Ccreate ->
  init w initial = (initial, inr c) ->
  exists body,
    trace (final (run' a))
    = [mk_request POST (api_url c +:+ "/tasks") (headers c)
         None (Some (PDict body))]
    /\ dict_has_key body "content" = true
    /\ dict_has_key body "project_id" = true
    /\ dict_get body "content" = of_opt (content a)
    /\ dict_get body "project_id" = of_opt (project a)
    /\ dict_has_key body "labels" = truthy (of_opt (labels a))
    /\ (forall s, labels a = Some s -> s <> "" ->
         dict_get body "labels" = PList (map PStr (split "," s)))
    /\ dict_has_key body "description" = false
    /\ map fst body
       = (["content"; "project_id"]
          ++ (if truthy (of_opt (labels a)) then ["labels"] else []))%list.
Proof.
  intros Hc Hi.
  exists (create_task_data (of_opt (content a)) (of_opt (project a))
            (cli_labels (labels a)) PNone).
  split; [|split; [|split; [|split; [|split; [|split; [|split; [|split]]]]]]].
  - apply (single_call_trace a c); [exact Hi|].
    unfold cli_call. rewrite Hc. reflexivity.
  - apply create_has_required.
  - apply create_has_required.
  - apply create_get_content.
  - apply create_get_project.
  - rewrite create_has_labels. apply cli_labels_truthy.
  - intros s Hs Hne.
    rewrite create_get_labels, cli_labels_truthy, Hs. cbn [of_opt].
    rewrite truthy_str. destruct (String.eqb_spec s ""); [contradiction|].
    cbn [negb]. unfold cli_labels. rewrite truthy_str.
    destruct (String.eqb_spec s ""); [contradiction|]. reflexivity.
  - apply create_has_description.
  - unfold create_task_data. rewrite cli_labels_truthy.
    destruct (truthy (of_opt (labels a))); reflexivity.
Qed.

(** X15. The list subcommand filters by project exactly when
    [--project] is given and not empty: an empty [--project] lists
    everything, as no [--project] does, by the very same call. *)
Theorem list_filter_flag (a : args) (c : client) :
  command a = Clist ->
  init w initial = (initial, inr c) ->
  exists params,
    trace (final (run' a))
    = [mk_request GET (api_url c +:+ "/tasks") (headers c)
         (Some params) None]
    /\ dict_has_key params "project_id" = truthy (of_opt (project a))
    /\ (forall P, project a = Some P -> P <> "" ->
         params = [("project_id", PStr P)])
    /\ (project a = None \/ project a = Some "" -> params = []).
Proof.
  intros Hc Hi. exists (list_tasks_params (of_opt (project a))).
  split; [|split; [|split]].
  - apply (single_call_trace a c); [exact Hi|].
    unfold cli_call. rewrite Hc. reflexivity.
  - unfold list_tasks_params.
    destruct (truthy (of_opt (project a))); reflexivity.
  - intros P -> HP. unfold list_tasks_params. cbn [of_opt].
    rewrite truthy_str. destruct (String.eqb_spec P ""); [contradiction|].
    reflexivity.
  - intros [->| ->]; reflexivity.
Qed.

Lemma lstrip_clean l : clean_start (lstrip l) = true.
Proof.
  induction l as [|c l IH]; [reflexivity|]. cbn [lstrip].
  destruct (is_space c) eqn:Hc; [exact IH|]. cbn. now rewrite Hc.
Qed.

Lemma clean_start_app l k : l <> [] -> clean_start (l ++ k) = clean_start l.
Proof. destruct l; [contradiction|reflexivity]. Qed.

(** Stripping the start leaves a clean end clean. *)
Lemma lstrip_keeps_end l :
  clean_start (rev l) = true -> clean_start (rev (lstrip l)) = true.
Proof.
  induction l as [|c l IH]; [reflexivity|]. cbn [lstrip].
  destruct (is_space c); [|trivial].
  intros H. apply IH. destruct l as [|c' l]; [reflexivity|].
  cbn [rev] in H. rewrite clean_start_app in H; [exact H|].
  cbn [rev]. intros E. apply app_eq_nil in E. destruct E as [_ E].
  discriminate.
Qed.

Lemma strip_clean s : clean_ends (strip s) = true.
Proof.
  unfold clean_ends, strip.
  rewrite list_ascii_of_string_of_list_ascii, rev_involutive.
  apply andb_true_intro. split.
  - apply lstrip_keeps_end. rewrite rev_involutive. apply lstrip_clean.
  - apply lstrip_clean.
Qed.

(** X16. A token that comes from a secret file has no whitespace at
    either end, so that the newline a file ends with never reaches the
    Authorization header; a token that comes from the environment
    variable is used as it is. *)
Theorem token_whitespace (st st' : state) (c : client) :
  init w st = (st', inr c) ->
  exists t,
    token c = Some t /\ t <> ""
    /\ (truthy (of_opt (environ w "TODOIST_TOKEN")) = true ->
        environ w "TODOIST_TOKEN" = Some t)
    /\ (truthy (of_opt (environ w "TODOIST_TOKEN")) = false ->
        clean_ends t = true).
Proof.
  rewrite init_resolves.
  unfold resolve_in_order, first_match, env_source, file_source.
  destruct (environ w "TODOIST_TOKEN") as [e|]; cbn [of_opt].
  - rewrite truthy_str. destruct (String.eqb_spec e "") as [->|He].
    + cbn [negb].
      destruct (fs w ("/run/secrets/" +:+ "todoist_token")) as [[x| |]|];
        [| discriminate | discriminate |].
      * destruct (String.eqb_spec (strip x) ""); [discriminate|].
        intros [= <- <-]. exists (strip x). repeat split; try discriminate.
        -- assumption.
        -- intros _. apply strip_clean.
      * destruct (fs w ("/run/secrets/" +:+ "TODOIST_TOKEN")) as [[x| |]|];
          [| discriminate | discriminate | discriminate].
        destruct (String.eqb_spec (strip x) ""); [discriminate|].
        intros [= <- <-]. exists (strip x). repeat split; try discriminate.
        -- assumption.
        -- intros _. apply strip_clean.
    + cbn [negb]. destruct (String.eqb_spec e ""); [contradiction|].
      intros [= <- <-]. exists e. repeat split; try discriminate.
      assumption.
  - destruct (fs w ("/run/secrets/" +:+ "todoist_token")) as [[x| |]|];
      [| discriminate | discriminate |].
    + destruct (String.eqb_spec (strip x) ""); [discriminate|].
      intros [= <- <-]. exists (strip x). repeat split; try discriminate.
      * assumption.
      * intros _. apply strip_clean.
    + destruct (fs w ("/run/secrets/" +:+ "TODOIST_TOKEN")) as [[x| |]|];
        [| discriminate | discriminate | discriminate].
      destruct (String.eqb_spec (strip x) ""); [discriminate|].
      intros [= <- <-]. exists (strip x). repeat split; try discriminate.
      * assumption.
      * intros _. apply strip_clean.
Qed.

(** ** Bodies and counts *)

(** X17. The keys of a request body, in the order they are sent:
    [create_task] sends content and project_id, then labels and
    description when the argument is true in Python's sense;
    [update_task] sends labels and description when the argument is not
    None.  No key occurs twice. *)
Theorem body_keys (ct p l d : pyval) :
  map fst (create_task_data ct p l d)
  = (["content"; "project_id"]
     ++ (if truthy l then ["labels"] else [])
     ++ (if truthy d then ["description"] else []))%list
  /\ map fst (update_task_data l d)
     = ((if is_not_none l then ["labels"] else [])
        ++ (if is_not_none d then ["description"] else []))%list
  /\ NoDup (map fst (create_task_data ct p l d))
  /\ NoDup (map fst (update_task_data l d)).
Proof.
  unfold create_task_data, update_task_data.
  destruct (truthy l), (truthy d), (is_not_none l), (is_not_none d);
    cbn; repeat split;
    repeat (constructor;
            [cbn; rewrite ?list_elem_of_In; cbn; intuition discriminate|]);
    constructor.
Qed.

(** X18. create-batch never makes more calls than the array has
    elements: no call is repeated, whatever is answered. *)
Theorem batch_calls_bounded (a : args) (path text : string)
    (batch : list pyval) :
  command a = Ccreate_batch ->
  file_arg a = Some path ->
  fs w path = Some (Readable text) ->
  json_loads text = Some (PList batch) ->
  (length (trace (final (run' a))) <= length batch)%nat.
Proof.
  intros Hc Hf Hfs Hj.
  destruct (run_batch_cases a Hc)
    as [(d & ->)
       |(t & P & path' & text' & batch' & Ht & Hr & Hp & HP & Hf' & Hpath
          & Hfs' & Hj' & Hmain)].
  - cbn. lia.
  - rewrite Hf in Hf'. injection Hf' as <-.
    rewrite Hfs in Hfs'. injection Hfs' as <-.
    rewrite Hj in Hj'. injection Hj' as <-.
    unfold run. rewrite finish_trace, Hmain. unfold bind.
    destruct (batch_loop_shape (new_client (Some t)) (PStr P) batch []
                initial)
      as (ds & [(results & -> & Hlen & ->)|(e & He & Hle & ->)]);
      cbn [fst trace print initial app];
      rewrite ?length_map; try rewrite length_map in Hle; lia.
Qed.

End Claims.

(** * The properties on the sample inputs *)

Example strip_sample :
  strip (String "009"%char " tok en" +:+ String "010"%char "") = "tok en".
Proof. reflexivity. Qed.

Example split_sample : split "," "a,,b" = ["a"; ""; "b"].
Proof. reflexivity. Qed.

Example sample_dumps_list : sample_dumps (PList [PNone; PNone]) = "[2 items]".
Proof. vm_compute. reflexivity. Qed.

(** ** The ways to a token *)

Example token_from_environment :
  init (sample_world (Some "secret") (Some (Readable "low"))
          (Some (Readable "UP")) numbering_server) initial
  = (initial, inr (new_client (Some "secret"))).
Proof. vm_compute. reflexivity. Qed.

Example token_from_lowercase_file :
  init (sample_world None (Some (Readable (" low" +:+ String "010"%char "")))
          (Some (Readable "UP")) numbering_server) initial
  = (initial, inr (new_client (Some "low"))).
Proof. vm_compute. reflexivity. Qed.

Example token_from_uppercase_file :
  init (sample_world (Some "") None (Some (Readable "UP")) numbering_server)
    initial
  = (initial, inr (new_client (Some "UP"))).
Proof. vm_compute. reflexivity. Qed.

Example no_token_anywhere :
  run sample_loads sample_dumps
    (sample_world None None None numbering_server)
    (mk_args Clist None None None None None None)
  = mk_outcome 1 (mk_state [] [] [Line missing_token_message]).
Proof. vm_compute. reflexivity. Qed.

(** The lowercase file matches because it exists; blank, it decides all
    the same and the uppercase file is not read. *)
Example blank_lowercase_file_wins :
  init (sample_world None (Some (Readable " ")) (Some (Readable "UP"))
          numbering_server) initial
  = fatal initial.
Proof. vm_compute. reflexivity. Qed.

Example undecodable_secret_file :
  run sample_loads sample_dumps
    (sample_world None (Some Undecodable) (Some (Readable "UP"))
       numbering_server)
    (mk_args Clist None None None None None None)
  = mk_outcome 1 (mk_state [] [] [Traceback UnicodeDecodeError]).
Proof. vm_compute. reflexivity. Qed.

Example unreadable_secret_file :
  run sample_loads sample_dumps
    (sample_world None (Some Unreadable) (Some (Readable "UP"))
       numbering_server)
    (mk_args Clist None None None None None None)
  = mk_outcome 1 (mk_state [] [] [Traceback OSError]).
Proof. vm_compute. reflexivity. Qed.

(** ** C1: a blank lowercase file before a token in the uppercase file *)



(** ** C2: an empty value given to [create_task] *)

(** [create_task("A", "P", [], "")]: labels and description are given,
    not None, and the body has neither key. *)
Lemma C2_counterexample :
  is_not_none (PList []) = true /\ is_not_none (PStr "") = true
  /\ fst (create_task sample_loads (env_world numbering_server) sample_client
            (PStr "A") (PStr "P") (PList []) (PStr "") initial)
     = sent initial
         (mk_request POST "https://api.todoist.com/rest/v2/tasks"
            (headers sample_client) None
            (Some (PDict [("content", PStr "A"); ("project_id", PStr "P")])))
  /\ dict_has_key (create_task_data (PStr "A") (PStr "P") (PList []) (PStr ""))
       "labels" = false
  /\ dict_has_key (create_task_data (PStr "A") (PStr "P") (PList []) (PStr ""))
       "description" = false.
Proof. vm_compute. repeat split. Qed.

(** ** C6: a status that is neither 2xx nor an error for [requests] *)

(** A 304 answer to [delete_task("t1")]: the method returns True, and the
    delete subcommand prints its confirmation and ends with status 0. *)
Lemma C6_counterexample :
  is_2xx 304 = false
  /\ delete_task (env_world (constant_server (mk_response 304 "")))
       sample_client (Some "t1") initial
     = (sent initial (delete_call sample_client (Some "t1")), inr true)
  /\ run sample_loads sample_dumps
       (env_world (constant_server (mk_response 304 "")))
       (mk_args Cdelete None None (Some "t1") None None None)
     = mk_outcome 0
         (mk_state [delete_call sample_client (Some "t1")] ["Deleted t1"] []).
Proof. vm_compute. repeat split. Qed.

(** C6 on a server that answers 404 to everything. *)
Lemma C6_error_status_raises_witness :
  delete_task (env_world (constant_server (mk_response 404 "Not Found")))
    sample_client (Some "t1") initial
  = (sent initial (delete_call sample_client (Some "t1")),
     inl (HTTPError (mk_response 404 "Not Found")))
  /\ run sample_loads sample_dumps
       (env_world (constant_server (mk_response 404 "Not Found")))
       (mk_args Clist (Some "P") None None None None None)
     = mk_outcome 1
         (mk_state [list_call sample_client (PStr "P")] []
            [Traceback (HTTPError (mk_response 404 "Not Found"))]).
Proof.
  pose proof (C6_error_status_raises sample_loads sample_dumps
                (env_world (constant_server (mk_response 404 "Not Found")))
                sample_client (mk_response 404 "Not Found") initial
                (Some "t1") PNone (PStr "P") PNone PNone eq_refl)
    as (_ & _ & _ & Hdel & _ & Hcli).
  split.
  - apply Hdel. reflexivity.
  - apply Hcli; reflexivity.
Defined.

(** C10 on two command lines, [--description one] and
    [--description two]. *)
Lemma C10_create_ignores_description_witness :
  run sample_loads sample_dumps (env_world numbering_server)
    (mk_args Ccreate (Some "P") (Some "A") None None (Some "one") None)
  = run sample_loads sample_dumps (env_world numbering_server)
      (mk_args Ccreate (Some "P") (Some "A") None None (Some "two") None).
Proof.
  exact (proj1 (C10_create_ignores_description sample_loads sample_dumps
                  (env_world numbering_server)
                  (mk_args Ccreate (Some "P") (Some "A") None None None None)
                  (Some "one") (Some "two") eq_refl)).
Defined.

(** C5 on a command line without [--project]. *)
Lemma C5_batch_input_validation_witness :
  (trace (final (run sample_loads sample_dumps (env_world numbering_server)
                   (batch_args None (Some "two.json")))) = []
   /\ stdout (final (run sample_loads sample_dumps
                       (env_world numbering_server)
                       (batch_args None (Some "two.json")))) = []
   /\ exit_code (run sample_loads sample_dumps (env_world numbering_server)
                   (batch_args None (Some "two.json"))) = 1)
  /\ main sample_loads sample_dumps (env_world numbering_server)
       (batch_args None (Some "two.json")) initial
     = (initial, inl (SystemExit_msg "create-batch requires --project")).
Proof.
  pose proof (C5_batch_input_validation sample_loads sample_dumps
                (env_world numbering_server)
                (batch_args None (Some "two.json"))
                eq_refl (or_introl eq_refl)) as (Hrun & Hmain & _).
  split; [exact Hrun|].
  apply (Hmain sample_client); reflexivity.
Defined.

(** A JSON object where the array should be. *)
Example object_payload_rejected :
  load_tasks_from_file sample_loads (env_world numbering_server)
    "object.json" initial
  = (initial, inl (ValueError "Batch payload must be a JSON array."))
  /\ run sample_loads sample_dumps (env_world numbering_server)
       (batch_args (Some "P") (Some "object.json"))
     = mk_outcome 1
         (mk_state [] []
            [Traceback (ValueError "Batch payload must be a JSON array.")]).
Proof. vm_compute. split; reflexivity. Qed.

Example missing_file_flag :
  run sample_loads sample_dumps (env_world numbering_server)
    (batch_args (Some "P") None)
  = mk_outcome 1 (mk_state [] [] [Line "create-batch requires --file"]).
Proof. vm_compute. reflexivity. Qed.

(** ** create-batch on two and on three elements *)

(** C3 on the file [[{"content":"A"},{"content":"B"}]] with
    [--project P]. *)
Lemma C3_batch_in_order_witness :
  run sample_loads sample_dumps (env_world numbering_server)
    (batch_args (Some "P") (Some "two.json"))
  = mk_outcome 0
      (mk_state
         [create_call sample_client (PStr "A") (PStr "P") PNone PNone;
          create_call sample_client (PStr "B") (PStr "P") PNone PNone]
         [sample_dumps (PList [PDict [("id", PStr "1")];
                               PDict [("id", PStr "2")]])]
         []).
Proof.
  pose proof (C3_batch_in_order sample_loads sample_dumps
                (env_world numbering_server)
                (batch_args (Some "P") (Some "two.json"))
                sample_client "P" "two.json" batch2_text
                [[("content", PStr "A")]; [("content", PStr "B")]]
                eq_refl eq_refl) as H.
  destruct H as (_ & _ & H);
    [discriminate | reflexivity | discriminate
     | reflexivity | reflexivity | reflexivity |].
  apply (H [PDict [("id", PStr "1")]; PDict [("id", PStr "2")]]);
    [reflexivity|].
  intros [|[|i]] r Hr; cbn in Hr; try discriminate;
    injection Hr as <-; eexists; split; reflexivity.
Defined.

(** C4 on three elements, the second call answered by a 400: the calls
    for A and B, none for C. *)
Lemma C4_batch_stops_at_first_failure_witness :
  run sample_loads sample_dumps (env_world refusing_server)
    (batch_args (Some "P") (Some "three.json"))
  = mk_outcome 1
      (mk_state
         [create_call sample_client (PStr "A") (PStr "P") PNone PNone;
          create_call sample_client (PStr "B") (PStr "P") PNone PNone]
         []
         [Traceback (HTTPError (mk_response 400 "Bad Request"))]).
Proof.
  apply (C4_batch_stops_at_first_failure sample_loads sample_dumps
           (env_world refusing_server)
           (batch_args (Some "P") (Some "three.json"))
           sample_client "P" "three.json" batch3_text
           [[("content", PStr "A")]] [("content", PStr "B")]
           [PDict [("content", PStr "C")]] [PDict [("id", PStr "1")]]);
    try reflexivity; try discriminate.
  intros [|i] r Hr; cbn in Hr; try discriminate.
  injection Hr as <-; eexists; split; reflexivity.
Defined.

(** * The further properties on the sample inputs *)

(** X3 on a delete that is refused. *)
Lemma single_call_exactly_once_witness :
  (length (trace (final (run sample_loads sample_dumps
                           (env_world (constant_server
                                         (mk_response 404 "Not Found")))
                           (mk_args Cdelete None None (Some "t1") None None
                              None)))) <= 1)%nat
  /\ exists r,
       cli_call sample_client
         (mk_args Cdelete None None (Some "t1") None None None) = Some r
       /\ trace (final (run sample_loads sample_dumps
                          (env_world (constant_server
                                        (mk_response 404 "Not Found")))
                          (mk_args Cdelete None None (Some "t1") None None
                             None))) = [r].
Proof.
  destruct (single_call_exactly_once sample_loads sample_dumps
              (env_world (constant_server (mk_response 404 "Not Found")))
              (mk_args Cdelete None None (Some "t1") None None None)
              eq_refl) as [H1 H2].
  split; [exact H1|]. apply (H2 sample_client). reflexivity.
Defined.

(** X5 on a list that is answered with a task, and on one answered
    with an empty body. *)
Lemma json_subcommand_outcome_witness :
  run sample_loads sample_dumps (env_world numbering_server)
    (mk_args Clist (Some "P") None None None None None)
  = mk_outcome 0
      (mk_state [list_call sample_client (PStr "P")]
         [sample_dumps (PDict [("id", PStr "1")])] [])
  /\ run sample_loads sample_dumps
       (env_world (constant_server (mk_response 204 "")))
       (mk_args Clist (Some "P") None None None None None)
     = mk_outcome 1
         (mk_state [list_call sample_client (PStr "P")] []
            [Traceback JSONDecodeError]).
Proof.
  split.
  - exact (json_subcommand_outcome sample_loads sample_dumps
             (env_world numbering_server)
             (mk_args Clist (Some "P") None None None None None)
             sample_client (list_call sample_client (PStr "P"))
             (or_introl eq_refl) eq_refl eq_refl).
  - exact (json_subcommand_outcome sample_loads sample_dumps
             (env_world (constant_server (mk_response 204 "")))
             (mk_args Clist (Some "P") None None None None None)
             sample_client (list_call sample_client (PStr "P"))
             (or_introl eq_refl) eq_refl eq_refl).
Defined.

(** X6 on a delete answered 204 with an empty body, and on a complete
    without [--id]. *)
Lemma confirmation_subcommand_outcome_witness :
  run sample_loads sample_dumps
    (env_world (constant_server (mk_response 204 "")))
    (mk_args Cdelete None None (Some "t1") None None None)
  = mk_outcome 0
      (mk_state [delete_call sample_client (Some "t1")] ["Deleted t1"] [])
  /\ run sample_loads sample_dumps
       (env_world (constant_server (mk_response 204 "")))
       (mk_args Ccomplete None None None None None None)
     = mk_outcome 0
         (mk_state [complete_call sample_client None] ["Completed None"] []).
Proof.
  split.
  - exact (proj1 (confirmation_subcommand_outcome sample_loads sample_dumps
                    (env_world (constant_server (mk_response 204 "")))
                    (mk_args Cdelete None None (Some "t1") None None None)
                    sample_client eq_refl) eq_refl).
  - exact (proj2 (confirmation_subcommand_outcome sample_loads sample_dumps
                    (env_world (constant_server (mk_response 204 "")))
                    (mk_args Ccomplete None None None None None None)
                    sample_client eq_refl) eq_refl).
Defined.

(** X7 on a file with two tasks and on a path that does not exist. *)
Lemma load_tasks_from_file_cases_witness :
  snd (load_tasks_from_file sample_loads (env_world numbering_server)
         "two.json" initial)
  = inr [PDict [("content", PStr "A")]; PDict [("content", PStr "B")]]
  /\ snd (load_tasks_from_file sample_loads (env_world numbering_server)
            "nowhere.json" initial)
     = inl OSError.
Proof.
  split.
  - apply (proj1 (proj2 (load_tasks_from_file_cases sample_loads
                           (env_world numbering_server) "two.json" initial))).
    exists batch2_text. split; reflexivity.
  - apply (proj1 (proj2 (proj2 (load_tasks_from_file_cases sample_loads
                                  (env_world numbering_server)
                                  "nowhere.json" initial)))).
    left. reflexivity.
Defined.

(** X8 on the run over two tasks. *)
Lemma batch_calls_need_valid_input_witness :
  exists t P path text batch,
    t <> "" /\ resolve_in_order (env_world numbering_server) = Match t
    /\ project (batch_args (Some "P") (Some "two.json")) = Some P
    /\ P <> ""
    /\ file_arg (batch_args (Some "P") (Some "two.json")) = Some path
    /\ path <> ""
    /\ fs (env_world numbering_server) path = Some (Readable text)
    /\ sample_loads text = Some (PList batch)
    /\ batch <> [].
Proof.
  apply (batch_calls_need_valid_input sample_loads sample_dumps
           (env_world numbering_server)
           (batch_args (Some "P") (Some "two.json")) eq_refl).
  vm_compute. discriminate.
Defined.

(** X9 on the array [[{"content": "A"}, 1]]. *)
Lemma batch_stops_at_non_object_witness :
  run more_loads sample_dumps (more_world numbering_server)
    (batch_args (Some "P") (Some "mixed.json"))
  = mk_outcome 1
      (mk_state [create_call sample_client (PStr "A") (PStr "P") PNone PNone]
         [] [Traceback AttributeError]).
Proof.
  apply (batch_stops_at_non_object more_loads sample_dumps
           (more_world numbering_server)
           (batch_args (Some "P") (Some "mixed.json"))
           sample_client "P" "mixed.json" mixed_text
           [[("content", PStr "A")]] (PInt 1) [] [PDict [("id", PStr "1")]]);
    try reflexivity; try discriminate.
  intros [|i] r Hr; cbn in Hr; try discriminate.
  injection Hr as <-; eexists; split; reflexivity.
Defined.

(** X10 on the run over two tasks. *)
Lemma batch_success_is_complete_witness :
  exists t P path text ds (results : list pyval),
    resolve_in_order (env_world numbering_server) = Match t
    /\ project (batch_args (Some "P") (Some "two.json")) = Some P
    /\ file_arg (batch_args (Some "P") (Some "two.json")) = Some path
    /\ fs (env_world numbering_server) path = Some (Readable text)
    /\ sample_loads text = Some (PList (map PDict ds))
    /\ length results = length ds
    /\ run sample_loads sample_dumps (env_world numbering_server)
         (batch_args (Some "P") (Some "two.json"))
       = mk_outcome 0
           (mk_state (map (batch_call (new_client (Some t)) (PStr P)) ds)
              [sample_dumps (PList results)] []).
Proof.
  apply (batch_success_is_complete sample_loads sample_dumps
           (env_world numbering_server)
           (batch_args (Some "P") (Some "two.json")) eq_refl).
  vm_compute. reflexivity.
Defined.

(** X11 on a file that holds [[]]. *)
Lemma batch_of_nothing_witness :
  run more_loads sample_dumps (more_world numbering_server)
    (batch_args (Some "P") (Some "empty.json"))
  = mk_outcome 0 (mk_state [] [sample_dumps (PList [])] []).
Proof.
  apply (batch_of_nothing more_loads sample_dumps
           (more_world numbering_server)
           (batch_args (Some "P") (Some "empty.json"))
           sample_client "P" "empty.json" "[]");
    try reflexivity; discriminate.
Defined.

(** X13 on [update --id t1 --labels a,b] with an empty
    [--description]. *)
Lemma update_flags_to_body_witness :
  exists body,
    trace (final (run sample_loads sample_dumps (env_world numbering_server)
                    (mk_args Cupdate None None (Some "t1") (Some "a,b")
                       (Some "") None)))
    = [mk_request POST (api_url sample_client +:+ "/tasks/" +:+ "t1")
         (headers sample_client) None (Some (PDict body))]
    /\ dict_has_key body "labels" = true
    /\ dict_get body "labels" = PList [PStr "a"; PStr "b"]
    /\ dict_has_key body "description" = true
    /\ dict_get body "description" = PStr "".
Proof.
  destruct (update_flags_to_body sample_loads sample_dumps
              (env_world numbering_server)
              (mk_args Cupdate None None (Some "t1") (Some "a,b")
                 (Some "") None)
              sample_client eq_refl eq_refl)
    as (body & Ht & Hl & Hv & Hd & Hg).
  exists body. repeat split; try assumption.
  apply (Hv "a,b"); [reflexivity|discriminate].
Defined.

(** X14 on [create --project P --labels a,b] without [--content]. *)
Lemma create_flags_to_body_witness :
  exists body,
    trace (final (run sample_loads sample_dumps (env_world numbering_server)
                    (mk_args Ccreate (Some "P") None None (Some "a,b")
                       None None)))
    = [mk_request POST (api_url sample_client +:+ "/tasks")
         (headers sample_client) None (Some (PDict body))]
    /\ dict_has_key body "content" = true
    /\ dict_get body "content" = PNone
    /\ dict_get body "project_id" = PStr "P"
    /\ dict_has_key body "labels" = true
    /\ dict_get body "labels" = PList [PStr "a"; PStr "b"].
Proof.
  destruct (create_flags_to_body sample_loads sample_dumps
              (env_world numbering_server)
              (mk_args Ccreate (Some "P") None None (Some "a,b") None None)
              sample_client eq_refl eq_refl)
    as (body & Ht & Hk & _ & Hc & Hp & Hl & Hv & _).
  exists body. repeat split; try assumption.
  apply (Hv "a,b"); [reflexivity|discriminate].
Defined.

(** X15 on [list] with an empty [--project]. *)
Lemma list_filter_flag_witness :
  exists params,
    trace (final (run sample_loads sample_dumps (env_world numbering_server)
                    (mk_args Clist (Some "") None None None None None)))
    = [mk_request GET (api_url sample_client +:+ "/tasks")
         (headers sample_client) (Some params) None]
    /\ params = [].
Proof.
  destruct (list_filter_flag sample_loads sample_dumps
              (env_world numbering_server)
              (mk_args Clist (Some "") None None None None None)
              sample_client eq_refl eq_refl)
    as (params & Ht & _ & _ & He).
  exists params. split; [exact Ht|]. apply He. right. reflexivity.
Defined.

(** X16 on a lowercase secret file that holds a token between a space
    and a newline. *)
Lemma token_whitespace_witness :
  exists t,
    token (new_client (Some "low")) = Some t /\ t <> ""
    /\ clean_ends t = true.
Proof.
  destruct (token_whitespace
              (sample_world None
                 (Some (Readable (" low" +:+ String "010"%char "")))
                 None numbering_server)
              initial initial (new_client (Some "low")) eq_refl)
    as (t & Ht & Hne & _ & Hclean).
  exists t. repeat split; try assumption. apply Hclean. reflexivity.
Defined.

(** X18 on three tasks, the second refused. *)
Lemma batch_calls_bounded_witness :
  (length (trace (final (run sample_loads sample_dumps
                           (env_world refusing_server)
                           (batch_args (Some "P") (Some "three.json")))))
   <= 3)%nat.
Proof.
  apply (batch_calls_bounded sample_loads sample_dumps
           (env_world refusing_server)
           (batch_args (Some "P") (Some "three.json"))
           "three.json" batch3_text
           [PDict [("content", PStr "A")]; PDict [("content", PStr "B")];
            PDict [("content", PStr "C")]]);
    reflexivity.
Defined.
